(** * EventRoom use case: a shallow embedding and its verified properties

    The embedded program is the C# EventRoom CRUD use case
    ([EventRoomUseCase], [EventRoomRepository], the DTOs and the AutoMapper
    profile).  The use case is written against repository interfaces, so it
    is embedded as a program over the interface calls ([Task]); a handler
    gives the calls a meaning.  Two kinds of handler are used: arbitrary ones
    (what a Moq mock can do) and the in-memory database [InMemory.Repositories]. *)

From Stdlib Require Import ZArith NArith QArith Qround List Permutation String Ascii Bool Lia.
Import ListNotations.

Local Open Scope Z_scope.

(** ** Identifiers *)

(** [System.Guid]: an opaque 128-bit value. *)
Definition Guid := N.

Definition Guid_Empty : Guid := 0%N.

Definition hex_digit (n : N) : ascii :=
  nth (N.to_nat n)
      ["0"; "1"; "2"; "3"; "4"; "5"; "6"; "7";
       "8"; "9"; "a"; "b"; "c"; "d"; "e"; "f"]%char "0"%char.

Fixpoint hex_fixed (width : nat) (n : N) : string :=
  match width with
  | O => EmptyString
  | S w => (hex_fixed w (n / 16)%N ++ String (hex_digit (n mod 16)%N) EmptyString)%string
  end.

(** [Guid.ToString()], format "D": 32 hexadecimal digits in groups of
    8-4-4-4-12.  This is what string interpolation applies to a Guid. *)
Definition Guid_ToString (g : Guid) : string :=
  let h := hex_fixed 32 g in
  (substring 0 8 h ++ "-" ++ substring 8 4 h ++ "-" ++ substring 12 4 h ++ "-"
     ++ substring 16 4 h ++ "-" ++ substring 20 12 h)%string.

(** [int]: the values are kept in [Z]; the use case does no arithmetic on
    them except the division of [GetFilteredEventRoomsAsync], which is done
    in [double]. *)
Definition Int32_MinValue : Z := - 2 ^ 31.
Definition Int32_MaxValue : Z := 2 ^ 31 - 1.

(** ** Domain entities *)

(** [Event] and [Room] are declared outside the documented feature; the unit
    test of the use case builds them with [Id] and [Name]. *)
Module Event.
Record t := mk { Id : Guid; Name : string }.
End Event.

Module Room.
Record t := mk { Id : Guid; Name : string }.
End Room.

(** [class EventRoom : BaseEntity].  [Id] is inherited from [BaseEntity]; the
    audit fields of [BaseEntity] are never read or written by the use case
    and are left out. *)
Module EventRoom.
Record t := mk {
  Id : Guid;
  EventId : Guid;
  RoomId : Guid;
  Event : option Event.t;
  Room : option Room.t
}.
End EventRoom.

(** ** Data transfer objects *)

Module EventDTO.
Record t := mk { Id : Guid; Name : string }.
End EventDTO.

Module RoomDTO.
Record t := mk { Id : Guid; Name : string }.
End RoomDTO.

Module EventRoomDTO.
Record t := mk {
  Id : Guid;
  EventId : Guid;
  RoomId : Guid;
  Event : option EventDTO.t;
  Room : option RoomDTO.t
}.
End EventRoomDTO.

Module CreateEventRoomDTO.
Record t := mk { EventId : Guid; RoomId : Guid }.
End CreateEventRoomDTO.

(** [Guid?] is [option Guid]; the C# defaults are [PageNumber = 1] and
    [PageSize = 10]. *)
Module EventRoomFilterDTO.
Record t := mk {
  EventId : option Guid;
  RoomId : option Guid;
  PageNumber : Z;
  PageSize : Z
}.
Definition default : t := mk None None 1 10.
End EventRoomFilterDTO.

Module PaginatedResultDTO.
Record t (T : Type) := mk {
  Items : list T;
  PageIndex : Z;
  PageSize : Z;
  TotalCount : Z;
  TotalPages : Z;
  HasPreviousPage : bool;
  HasNextPage : bool
}.
Arguments mk {T}.
Arguments Items {T}.
Arguments PageIndex {T}.
Arguments PageSize {T}.
Arguments TotalCount {T}.
Arguments TotalPages {T}.
Arguments HasPreviousPage {T}.
Arguments HasNextPage {T}.
End PaginatedResultDTO.

(** ** Exceptions *)

Inductive Exception :=
| NotFoundException (message : string)
| ConflictException (message : string).

(** ** AutoMapper profile [EventRoomMapping] *)

Module Mapper.
Definition MapEvent (e : Event.t) : EventDTO.t :=
  EventDTO.mk (Event.Id e) (Event.Name e).

Definition MapRoom (r : Room.t) : RoomDTO.t :=
  RoomDTO.mk (Room.Id r) (Room.Name r).

(** [CreateMap<EventRoom, EventRoomDTO>()] with [Event] and [Room] mapped
    from the navigation properties. *)
Definition MapEventRoom (src : EventRoom.t) : EventRoomDTO.t :=
  EventRoomDTO.mk (EventRoom.Id src) (EventRoom.EventId src) (EventRoom.RoomId src)
                  (option_map MapEvent (EventRoom.Event src))
                  (option_map MapRoom (EventRoom.Room src)).

(** [_mapper.Map<EventRoomDTO>(x)] on a nullable reference: AutoMapper maps
    a null source to a null destination. *)
Definition Map (src : option EventRoom.t) : option EventRoomDTO.t :=
  option_map MapEventRoom src.

(** [_mapper.Map<List<EventRoomDTO>>(xs)]. *)
Definition MapList (src : list EventRoom.t) : list EventRoomDTO.t :=
  map MapEventRoom src.
End Mapper.

(** ** Repository interfaces as calls *)

(** A navigation property named in an [Include]. *)
Inductive Navigation := NavEvent | NavRoom.

(** The members of [IEventRepository], [IRoomRepository],
    [IEventRoomRepository] and [IUnitOfWork] that the use case calls, and
    the two composite-key members that [EventRoomRepository] adds.
    [GetAllAsync] keeps the named arguments of the call site: predicate,
    tracking, page, count, include, orderBy, descending.
    [GetEventRoomsPagedAsync], which the use case never calls, is left out. *)
Inductive Call : Type -> Type :=
| Events_FindOneAsync (predicate : Event.t -> bool) : Call (option Event.t)
| Rooms_FindOneAsync (predicate : Room.t -> bool) : Call (option Room.t)
| EventRooms_FindOneAsync (predicate : EventRoom.t -> bool) : Call (option EventRoom.t)
| EventRooms_GetCount (predicate : EventRoom.t -> bool) : Call Z
| EventRooms_GetAllAsync (predicate : EventRoom.t -> bool) (tracking : bool)
    (page count : Z) (include : list Navigation)
    (orderBy : EventRoom.t -> Guid) (descending : bool) : Call (list EventRoom.t)
| EventRooms_AddAsync (entity : EventRoom.t) : Call unit
| EventRooms_DeleteAsync (predicate : EventRoom.t -> bool) : Call unit
| EventRooms_GetByIdsAsync (eventId roomId : Guid) : Call (option EventRoom.t)
| EventRooms_DeleteByIdsAsync (eventId roomId : Guid) : Call unit
| UnitOfWork_SaveChangesAsync : Call unit.

(** An [async] method body: it returns, throws, or awaits a call and goes on
    with its result. *)
Inductive Task (R : Type) : Type :=
| Return (r : R)
| Throw (e : Exception)
| Await {X : Type} (c : Call X) (k : X -> Task R).

Arguments Return {R}.
Arguments Throw {R}.
Arguments Await {R X}.

Declare Scope task_scope.
Delimit Scope task_scope with task.

Notation "'var' x ':=' 'await' c ';' k" := (Await c (fun x => k))
  (at level 10, x name, c at level 9, k at level 200,
   format "'[v' 'var'  x  ':='  'await'  c ';' '/' k ']'") : task_scope.
Notation "'await' c ';' k" := (Await c (fun _ => k))
  (at level 10, c at level 9, k at level 200,
   format "'[v' 'await'  c ';' '/' k ']'") : task_scope.

(** ** Running a task *)

Definition Handler (S : Type) : Type := forall X : Type, Call X -> S -> X * S.

Inductive Invocation :=
| Invoke {X : Type} (c : Call X).

Inductive Result (R : Type) :=
| Ok (r : R)
| Thrown (e : Exception).

Arguments Ok {R}.
Arguments Thrown {R}.

Record Outcome (S R : Type) := mkOutcome {
  result : Result R;
  final : S;
  calls : list Invocation
}.

Arguments mkOutcome {S R}.
Arguments result {S R}.
Arguments final {S R}.
Arguments calls {S R}.

Fixpoint run {S R : Type} (h : Handler S) (t : Task R) (s : S) : Outcome S R :=
  match t with
  | Return r => mkOutcome (Ok r) s []
  | Throw e => mkOutcome (Thrown e) s []
  | Await c k =>
      let (x, s') := h _ c s in
      let o := run h (k x) s' in
      mkOutcome (result o) (final o) (Invoke c :: calls o)
  end.

(** The calls that write: everything else only reads. *)
Definition mutating (i : Invocation) : bool :=
  match i with
  | Invoke (EventRooms_AddAsync _) => true
  | Invoke (EventRooms_DeleteAsync _) => true
  | Invoke (EventRooms_DeleteByIdsAsync _ _) => true
  | Invoke UnitOfWork_SaveChangesAsync => true
  | Invoke _ => false
  end.

(** ** [double], as far as the use case needs it *)

(** The only floating-point expression of the feature is
    [(int)Math.Ceiling(totalCount / (double)pageSize)].  A finite quotient of
    two [int]s is kept as the exact rational: the rounding of the division
    cannot move it onto or across an integer (an integer quotient is exact,
    and otherwise its distance to the next integer is at least [1/|b|], far
    above half a unit in the last place for 32-bit operands), so
    [Math.Ceiling] sees the same integer either way.  Division by zero gives
    an infinity or NaN, as IEEE 754 does; it does not throw. *)
Inductive double :=
| Finite (q : Q)
| PositiveInfinity
| NegativeInfinity
| NaN.

(** [a / (double)b] for [int] operands. *)
Definition div_double (a b : Z) : double :=
  match b ?= 0 with
  | Gt => Finite (a # Z.to_pos b)
  | Lt => Finite ((- a) # Z.to_pos (- b))
  | Eq =>
      match a ?= 0 with
      | Gt => PositiveInfinity
      | Lt => NegativeInfinity
      | Eq => NaN
      end
  end.

Definition Math_Ceiling (d : double) : double :=
  match d with
  | Finite q => Finite (inject_Z (Qceiling q))
  | _ => d
  end.

Definition is_finite (d : double) : bool :=
  match d with
  | Finite _ => true
  | _ => false
  end.

(** The explicit conversion [(int)d] truncates toward zero.  For NaN, an
    infinity or a value outside the range of [int] the C# language leaves the
    result unspecified (in an unchecked context, no exception): it is whatever
    [indeterminate] says. *)
Definition ToInt32 (indeterminate : double -> Z) (d : double) : Z :=
  match d with
  | Finite q =>
      let z := Z.quot (Qnum q) (Zpos (Qden q)) in
      if (Int32_MinValue <=? z) && (z <=? Int32_MaxValue) then z else indeterminate d
  | _ => indeterminate d
  end.

(** ** The use case *)

(** [x == y] between a [Guid] and a [Guid?]: the lifted operator is false
    when the nullable has no value. *)
Definition Guid_eq_nullable (x : Guid) (y : option Guid) : bool :=
  match y with
  | Some v => (x =? v)%N
  | None => false
  end.

Definition is_null {A : Type} (x : option A) : bool :=
  match x with
  | None => true
  | Some _ => false
  end.

Module EventRoomUseCase.
Section UseCase.

(** What the runtime makes of an unrepresentable [(int)] conversion. *)
Variable indeterminate : double -> Z.

Local Open Scope task_scope.
Local Open Scope string_scope.

Definition CreateEventRoomAsync (dto : CreateEventRoomDTO.t)
  : Task (option EventRoomDTO.t) :=
  (* Step 1: Validate Event exists *)
  var eventExists := await
    (Events_FindOneAsync (fun e => (Event.Id e =? CreateEventRoomDTO.EventId dto)%N));
  if is_null eventExists then Throw (NotFoundException "Event") else
  (* Step 2: Validate Room exists *)
  var roomExists := await
    (Rooms_FindOneAsync (fun r => (Room.Id r =? CreateEventRoomDTO.RoomId dto)%N));
  if is_null roomExists then Throw (NotFoundException "Room") else
  (* Step 3: Check for duplicate *)
  var exists_ := await
    (EventRooms_FindOneAsync
       (fun er => (EventRoom.EventId er =? CreateEventRoomDTO.EventId dto)%N
                  && (EventRoom.RoomId er =? CreateEventRoomDTO.RoomId dto)%N));
  if negb (is_null exists_)
  then Throw (ConflictException "EventRoom with same Event and Room already exists.")
  else
  (* Step 4: Create entity; the initializer leaves Id at its default *)
  let eventRoom :=
    EventRoom.mk Guid_Empty (CreateEventRoomDTO.EventId dto)
                 (CreateEventRoomDTO.RoomId dto) None None in
  (* Step 5: Save to database *)
  await (EventRooms_AddAsync eventRoom);
  await UnitOfWork_SaveChangesAsync;
  (* Step 6: Retrieve and return *)
  var created := await
    (EventRooms_FindOneAsync
       (fun er => (EventRoom.EventId er =? CreateEventRoomDTO.EventId dto)%N
                  && (EventRoom.RoomId er =? CreateEventRoomDTO.RoomId dto)%N));
  Return (Mapper.Map created).

Definition GetFilteredEventRoomsAsync (filterDto : EventRoomFilterDTO.t)
  : Task (PaginatedResultDTO.t EventRoomDTO.t) :=
  (* Build predicate with optional filters *)
  let predicate := fun er : EventRoom.t =>
    (is_null (EventRoomFilterDTO.EventId filterDto)
     || Guid_eq_nullable (EventRoom.EventId er) (EventRoomFilterDTO.EventId filterDto))
    && (is_null (EventRoomFilterDTO.RoomId filterDto)
        || Guid_eq_nullable (EventRoom.RoomId er) (EventRoomFilterDTO.RoomId filterDto)) in
  (* Get total count for pagination *)
  var totalCount := await (EventRooms_GetCount predicate);
  (* Get paginated results *)
  var eventRooms := await
    (EventRooms_GetAllAsync predicate false
       (EventRoomFilterDTO.PageNumber filterDto)
       (EventRoomFilterDTO.PageSize filterDto)
       [NavEvent; NavRoom]
       (fun er => EventRoom.Id er)
       false);
  (* Map to DTOs *)
  let items := Mapper.MapList eventRooms in
  (* Calculate pagination info *)
  let totalPages :=
    ToInt32 indeterminate
      (Math_Ceiling (div_double totalCount (EventRoomFilterDTO.PageSize filterDto))) in
  Return
    (PaginatedResultDTO.mk
       items
       (EventRoomFilterDTO.PageNumber filterDto)
       (EventRoomFilterDTO.PageSize filterDto)
       totalCount
       totalPages
       (1 <? EventRoomFilterDTO.PageNumber filterDto)%Z
       (EventRoomFilterDTO.PageNumber filterDto <? totalPages)%Z).

Definition GetEventRoomAsync (eventId roomId : Guid) : Task EventRoomDTO.t :=
  var eventRoom := await
    (EventRooms_FindOneAsync
       (fun er => (EventRoom.EventId er =? eventId)%N
                  && (EventRoom.RoomId er =? roomId)%N));
  match eventRoom with
  | None => Throw (NotFoundException "EventRoom")
  | Some found => Return (Mapper.MapEventRoom found)
  end.

Definition DeleteEventRoomAsync (eventId roomId : Guid) : Task unit :=
  (* Check existence *)
  var exists_ := await
    (EventRooms_FindOneAsync
       (fun er => (EventRoom.EventId er =? eventId)%N
                  && (EventRoom.RoomId er =? roomId)%N));
  if is_null exists_
  then Throw (NotFoundException
                ("EventRoom with EventId=" ++ Guid_ToString eventId
                 ++ " and RoomId=" ++ Guid_ToString roomId ++ " not found"))
  else
  (* Delete and persist *)
  await (EventRooms_DeleteAsync
           (fun er => (EventRoom.EventId er =? eventId)%N
                      && (EventRoom.RoomId er =? roomId)%N));
  await UnitOfWork_SaveChangesAsync;
  Return tt.

End UseCase.
End EventRoomUseCase.

(** ** The persistence gateway, in memory *)

(** The generic [Repository<T>] base class and the unit of work are not part
    of the documented sources; only their call sites are.  Their behaviour is
    taken from the gateway contract of the specification.  The members that
    [EventRoomRepository] itself defines ([GetByIdsAsync],
    [DeleteByIdsAsync]) are translated from their C# bodies. *)
Module Row.
(** Modelled from the spec: the stored association record, "identity =
    composite key (eventId, roomId)" with "an internal surrogate
    identifier"; the resolved references are "never owned by the association
    record", so they are not stored. *)
Record t := mk { Id : Guid; EventId : Guid; RoomId : Guid }.
End Row.

Module InMemory.

(** Modelled from the spec: a mutation of the gateway that the unit of work
    has not committed yet. *)
Inductive Change :=
| Added (entity : EventRoom.t)
| Deleted (predicate : EventRoom.t -> bool).

(** Modelled from the spec: the storage behind [ApplicationDbContext], that
    is the three collections, the generator of surrogate identifiers and the
    uncommitted changes. *)
Record Db := mkDb {
  Events : list Event.t;
  Rooms : list Room.t;
  EventRooms : list Row.t;
  NextId : Guid;
  Pending : list Change
}.

(** Modelled from the spec: an entity as a query loads it when no related
    entity is requested. *)
Definition Materialize (r : Row.t) : EventRoom.t :=
  EventRoom.mk (Row.Id r) (Row.EventId r) (Row.RoomId r) None None.

(** Modelled from the spec: the association records as a query sees them. *)
Definition Query (db : Db) : list EventRoom.t :=
  map Materialize (EventRooms db).

Definition includes (n : Navigation) (navs : list Navigation) : bool :=
  existsb (fun m => match n, m with
                    | NavEvent, NavEvent | NavRoom, NavRoom => true
                    | _, _ => false
                    end) navs.

(** Modelled from the spec: "related entities resolved when includeRelated
    is requested".  This is [q.Include(er => er.Event).Include(er => er.Room)]:
    the named navigation properties are looked up in their collections. *)
Definition Include (navs : list Navigation) (db : Db) (er : EventRoom.t) : EventRoom.t :=
  EventRoom.mk (EventRoom.Id er) (EventRoom.EventId er) (EventRoom.RoomId er)
    (if includes NavEvent navs
     then find (fun e => (Event.Id e =? EventRoom.EventId er)%N) (Events db)
     else EventRoom.Event er)
    (if includes NavRoom navs
     then find (fun r => (Room.Id r =? EventRoom.RoomId er)%N) (Rooms db)
     else EventRoom.Room er).

(** Modelled from the spec: a stable sort (the "stable ascending order" of
    the listing), by insertion. *)
Section Sorting.
Context {A : Type} (le : A -> A -> bool).

Fixpoint insert_sorted (x : A) (l : list A) : list A :=
  match l with
  | [] => [x]
  | y :: l' => if le x y then x :: l else y :: insert_sorted x l'
  end.

Definition sort (l : list A) : list A := fold_right insert_sorted [] l.
End Sorting.

(** Modelled from the spec: the ordering of [findPage], "stable ascending
    order by the record's surrogate identifier"; [descending] reverses the
    comparison. *)
Definition OrderBy (key : EventRoom.t -> Guid) (descending : bool)
           (l : list EventRoom.t) : list EventRoom.t :=
  sort (fun x y => if descending then (key y <=? key x)%N else (key x <=? key y)%N) l.

(** Modelled from the spec: [findOne(predicate)], "first match or absent".
    The base repository is generic in the entity; [set] is the collection
    of the repository it is called on. *)
Definition FindOneAsync {T : Type} (predicate : T -> bool) (set : list T) : option T :=
  find predicate set.

(** Modelled from the spec: [count(predicate)], the number of matching
    records. *)
Definition GetCount (predicate : EventRoom.t -> bool) (db : Db) : Z :=
  Z.of_nat (List.length (filter predicate (Query db))).

(** Modelled from the spec: [findPage(predicate, page, pageSize, orderBy,
    includeRelated)], "page p returns records at offset (p-1)*pageSize,
    limited to pageSize", "with related entities resolved when
    includeRelated is requested".  A negative offset or limit counts as
    zero. *)
Definition GetAllAsync (predicate : EventRoom.t -> bool) (tracking : bool)
           (page count : Z) (include : list Navigation)
           (orderBy : EventRoom.t -> Guid) (descending : bool) (db : Db)
  : list EventRoom.t :=
  map (Include include db)
      (firstn (Z.to_nat count)
              (skipn (Z.to_nat ((page - 1) * count))
                     (OrderBy orderBy descending (filter predicate (Query db))))).

(** Modelled from the spec: [add(record)]; the record is tracked until the
    unit of work commits. *)
Definition AddAsync (entity : EventRoom.t) (db : Db) : Db :=
  mkDb (Events db) (Rooms db) (EventRooms db) (NextId db) (Pending db ++ [Added entity]).

(** Modelled from the spec: the deletion of the gateway, here by predicate
    as the use case calls it; tracked until the unit of work commits. *)
Definition DeleteAsync (predicate : EventRoom.t -> bool) (db : Db) : Db :=
  mkDb (Events db) (Rooms db) (EventRooms db) (NextId db) (Pending db ++ [Deleted predicate]).

(** Modelled from the spec: one tracked change made durable.  An added
    record receives its generated surrogate identifier; a deletion removes
    the records that satisfy its predicate. *)
Definition Commit (db : Db) (c : Change) : Db :=
  match c with
  | Added entity =>
      mkDb (Events db) (Rooms db)
           (EventRooms db
              ++ [Row.mk (NextId db) (EventRoom.EventId entity) (EventRoom.RoomId entity)])
           (N.succ (NextId db)) (Pending db)
  | Deleted predicate =>
      mkDb (Events db) (Rooms db)
           (filter (fun r => negb (predicate (Materialize r))) (EventRooms db))
           (NextId db) (Pending db)
  end.

(** Modelled from the spec: "all operations are assumed durable upon the
    unit-of-work commit boundary": the tracked changes are applied in the
    order they were made. *)
Definition SaveChangesAsync (db : Db) : Db :=
  fold_left Commit (Pending db)
            (mkDb (Events db) (Rooms db) (EventRooms db) (NextId db) []).

(** [EventRoomRepository.GetByIdsAsync]. *)
Definition GetByIdsAsync (eventId roomId : Guid) (db : Db) : option EventRoom.t :=
  find (fun er => (EventRoom.EventId er =? eventId)%N && (EventRoom.RoomId er =? roomId)%N)
       (map (Include [NavEvent; NavRoom] db) (Query db)).

(** [EventRoomRepository.DeleteByIdsAsync]. *)
Definition DeleteByIdsAsync (eventId roomId : Guid) (db : Db) : Db :=
  DeleteAsync
    (fun er => (EventRoom.EventId er =? eventId)%N && (EventRoom.RoomId er =? roomId)%N) db.

(** The repositories and the unit of work over one [Db]. *)
Definition Repositories : Handler Db :=
  fun X c =>
    match c in Call X return Db -> X * Db with
    | Events_FindOneAsync p => fun db => (FindOneAsync p (Events db), db)
    | Rooms_FindOneAsync p => fun db => (FindOneAsync p (Rooms db), db)
    | EventRooms_FindOneAsync p => fun db => (FindOneAsync p (Query db), db)
    | EventRooms_GetCount p => fun db => (GetCount p db, db)
    | EventRooms_GetAllAsync p tracking page count include orderBy descending =>
        fun db => (GetAllAsync p tracking page count include orderBy descending db, db)
    | EventRooms_AddAsync entity => fun db => (tt, AddAsync entity db)
    | EventRooms_DeleteAsync p => fun db => (tt, DeleteAsync p db)
    | EventRooms_GetByIdsAsync eventId roomId =>
        fun db => (GetByIdsAsync eventId roomId db, db)
    | EventRooms_DeleteByIdsAsync eventId roomId =>
        fun db => (tt, DeleteByIdsAsync eventId roomId db)
    | UnitOfWork_SaveChangesAsync => fun db => (tt, SaveChangesAsync db)
    end.

End InMemory.

(** ** The service as its callers see it *)

(** The four actions of [EventRoomsController], each forwarding to the use
    case. *)
Inductive Request :=
| Create (dto : CreateEventRoomDTO.t)
| GetAll (filterDto : EventRoomFilterDTO.t)
| GetByIds (eventId roomId : Guid)
| Delete (eventId roomId : Guid).

(** The database after one request served on the in-memory gateway. *)
Definition serve (indeterminate : double -> Z) (req : Request) (db : InMemory.Db)
  : InMemory.Db :=
  match req with
  | Create dto =>
      final (run InMemory.Repositories (EventRoomUseCase.CreateEventRoomAsync dto) db)
  | GetAll filterDto =>
      final (run InMemory.Repositories
                 (EventRoomUseCase.GetFilteredEventRoomsAsync indeterminate filterDto) db)
  | GetByIds eventId roomId =>
      final (run InMemory.Repositories (EventRoomUseCase.GetEventRoomAsync eventId roomId) db)
  | Delete eventId roomId =>
      final (run InMemory.Repositories (EventRoomUseCase.DeleteEventRoomAsync eventId roomId) db)
  end.

Definition replay (indeterminate : double -> Z) (reqs : list Request) (db : InMemory.Db)
  : InMemory.Db :=
  fold_left (fun d req => serve indeterminate req d) reqs db.

(** ** Vocabulary of the statements *)

(** The lambdas of the use case, named.  Each unfolds to the lambda written
    at the call site. *)
Definition EventById (id : Guid) : Event.t -> bool :=
  fun e => (Event.Id e =? id)%N.

Definition RoomById (id : Guid) : Room.t -> bool :=
  fun r => (Room.Id r =? id)%N.

Definition ByKeys (eventId roomId : Guid) : EventRoom.t -> bool :=
  fun er => (EventRoom.EventId er =? eventId)%N && (EventRoom.RoomId er =? roomId)%N.

(** The predicate built by [GetFilteredEventRoomsAsync]. *)
Definition FilterPredicate (filterDto : EventRoomFilterDTO.t) : EventRoom.t -> bool :=
  fun er =>
    (is_null (EventRoomFilterDTO.EventId filterDto)
     || Guid_eq_nullable (EventRoom.EventId er) (EventRoomFilterDTO.EventId filterDto))
    && (is_null (EventRoomFilterDTO.RoomId filterDto)
        || Guid_eq_nullable (EventRoom.RoomId er) (EventRoomFilterDTO.RoomId filterDto)).

(** The page query issued by [GetFilteredEventRoomsAsync]. *)
Definition PageQuery (filterDto : EventRoomFilterDTO.t) : Call (list EventRoom.t) :=
  EventRooms_GetAllAsync (FilterPredicate filterDto) false
    (EventRoomFilterDTO.PageNumber filterDto) (EventRoomFilterDTO.PageSize filterDto)
    [NavEvent; NavRoom] EventRoom.Id false.

(** The entity that [CreateEventRoomAsync] builds and hands to [AddAsync]. *)
Definition NewEventRoom (dto : CreateEventRoomDTO.t) : EventRoom.t :=
  EventRoom.mk Guid_Empty (CreateEventRoomDTO.EventId dto) (CreateEventRoomDTO.RoomId dto)
               None None.

(** The message of the exception thrown by [DeleteEventRoomAsync]. *)
Definition DeleteNotFoundMessage (eventId roomId : Guid) : string :=
  ("EventRoom with EventId=" ++ Guid_ToString eventId
   ++ " and RoomId=" ++ Guid_ToString roomId ++ " not found")%string.

Definition EventExists (db : InMemory.Db) (id : Guid) : Prop :=
  exists e, In e (InMemory.Events db) /\ Event.Id e = id.

Definition RoomExists (db : InMemory.Db) (id : Guid) : Prop :=
  exists r, In r (InMemory.Rooms db) /\ Room.Id r = id.

(** An association record with the composite key is stored. *)
Definition Linked (db : InMemory.Db) (eventId roomId : Guid) : Prop :=
  exists r, In r (InMemory.EventRooms db) /\ Row.EventId r = eventId /\ Row.RoomId r = roomId.

(** No change is tracked and unsaved: the state between two service calls. *)
Definition Quiescent (db : InMemory.Db) : Prop := InMemory.Pending db = [].

(** Every association record refers to a stored event and a stored room. *)
Definition ReferentialIntegrity (db : InMemory.Db) : Prop :=
  forall r, In r (InMemory.EventRooms db) ->
            EventExists db (Row.EventId r) /\ RoomExists db (Row.RoomId r).

(** The filter names an event or a room that is not stored. *)
Definition NamesUnknownEntity (db : InMemory.Db) (filterDto : EventRoomFilterDTO.t) : Prop :=
  (exists id, EventRoomFilterDTO.EventId filterDto = Some id /\ ~ EventExists db id)
  \/ (exists id, EventRoomFilterDTO.RoomId filterDto = Some id /\ ~ RoomExists db id).

(** The filter names an event or a room that no association record refers
    to. *)
Definition NamesUnlinkedEntity (db : InMemory.Db) (filterDto : EventRoomFilterDTO.t) : Prop :=
  (exists id, EventRoomFilterDTO.EventId filterDto = Some id
              /\ forall r, In r (InMemory.EventRooms db) -> Row.EventId r <> id)
  \/ (exists id, EventRoomFilterDTO.RoomId filterDto = Some id
                 /\ forall r, In r (InMemory.EventRooms db) -> Row.RoomId r <> id).

(** The item a listing shows for a stored record: loaded, with both
    navigation properties included, and mapped. *)
Definition ListedItem (db : InMemory.Db) (r : Row.t) : EventRoomDTO.t :=
  Mapper.MapEventRoom (InMemory.Include [NavEvent; NavRoom] db (InMemory.Materialize r)).

(** The composite key of a stored record, and the stores in which no two
    records share it. *)
Definition Key (r : Row.t) : Guid * Guid := (Row.EventId r, Row.RoomId r).

Definition UniqueKeys (db : InMemory.Db) : Prop := NoDup (map Key (InMemory.EventRooms db)).

(** ** Sample data *)

(** The entities and identifiers of the documented request/response
    examples and of the unit test. *)
Module Sample.
Definition eventId : Guid := 0x550e8400e29b41d4a716446655440000%N.
Definition roomId : Guid := 0x6ba7b8109dad11d180b400c04fd430c8%N.
Definition generatedId : Guid := 0x6ba7b8119dad11d180b400c04fd430c8%N.

Definition TechConference : Event.t := Event.mk eventId "Tech Conference".
Definition Room101 : Room.t := Room.mk roomId "Room 101".

(** One event, one room, no association yet. *)
Definition unlinked : InMemory.Db :=
  InMemory.mkDb [TechConference] [Room101] [] generatedId [].

(** The same store once the event and the room are associated. *)
Definition linked : InMemory.Db :=
  InMemory.mkDb [TechConference] [Room101] [Row.mk generatedId eventId roomId]
                (N.succ generatedId) [].

(** A store without the event and the room. *)
Definition vacant : InMemory.Db := InMemory.mkDb [] [] [] generatedId [].

Definition createDto : CreateEventRoomDTO.t := CreateEventRoomDTO.mk eventId roomId.

(** The event held in twenty-five rooms. *)
Definition crowded : InMemory.Db :=
  InMemory.mkDb [TechConference]
    (map (fun i => Room.mk (N.of_nat i) "Room") (seq 1 25))
    (map (fun i => Row.mk (N.of_nat (100 + i)) eventId (N.of_nat i)) (seq 1 25))
    200%N [].

Definition byEvent (pageNumber pageSize : Z) : EventRoomFilterDTO.t :=
  EventRoomFilterDTO.mk (Some eventId) None pageNumber pageSize.

(** One value the runtime may give for an unrepresentable conversion:
    [int.MinValue], what the x64 conversion instruction returns. *)
Definition indeterminate (d : double) : Z := Int32_MinValue.
End Sample.

(** ** A mocked gateway *)

(** The mocks of the unit test [EventRoomUseCaseTests]: the event and room
    repositories answer with the arranged entities, and the EventRoom
    repository answers [FindOneAsync] from a [SetupSequence], one value per
    call and null once the sequence is used up.  The state is what remains
    of the sequence. *)
Module Mock.
Definition eventEntity : Event.t := Event.mk Sample.eventId "Tech Conference".
Definition roomEntity : Room.t := Room.mk Sample.roomId "Room 101".
Definition eventRoomEntity : EventRoom.t :=
  EventRoom.mk Sample.generatedId Sample.eventId Sample.roomId None None.

Definition Repositories : Handler (list (option EventRoom.t)) :=
  fun X c =>
    match c in Call X return list (option EventRoom.t) -> X * list (option EventRoom.t) with
    | Events_FindOneAsync _ => fun s => (Some eventEntity, s)
    | Rooms_FindOneAsync _ => fun s => (Some roomEntity, s)
    | EventRooms_FindOneAsync _ =>
        fun s => match s with
                 | answer :: rest => (answer, rest)
                 | [] => (None, [])
                 end
    | EventRooms_GetCount _ => fun s => (0, s)
    | EventRooms_GetAllAsync _ _ _ _ _ _ _ => fun s => ([], s)
    | EventRooms_AddAsync _ => fun s => (tt, s)
    | EventRooms_DeleteAsync _ => fun s => (tt, s)
    | EventRooms_GetByIdsAsync _ _ => fun s => (None, s)
    | EventRooms_DeleteByIdsAsync _ _ => fun s => (tt, s)
    | UnitOfWork_SaveChangesAsync => fun s => (tt, s)
    end.

(** First: check for duplicate.  Second: retrieve created. *)
Definition SetupSequence : list (option EventRoom.t) := [None; Some eventRoomEntity].
End Mock.

(** ** Sequencing of tasks *)

(** [await t] inside another [async] method: the awaited task runs first
    and an exception it throws ends the awaiting method too. *)
Fixpoint bind {A B : Type} (t : Task A) (k : A -> Task B) : Task B :=
  match t with
  | Return a => k a
  | Throw e => Throw e
  | Await c f => Await c (fun x => bind (f x) k)
  end.

(** ** The paged query of [EventRoomRepository] *)

Module EventRoomRepository.

(** [_context.EventRooms.CountAsync()]. *)
Definition CountAsync (db : InMemory.Db) : Z :=
  Z.of_nat (List.length (InMemory.EventRooms db)).

(** Modelled from the spec: [findPage] as the base repository offers it to
    [GetEventRoomsPagedAsync], whose predicate and ordering are nullable: a
    null predicate filters nothing, a null ordering keeps the stored order;
    otherwise it is [InMemory.GetAllAsync]. *)
Definition GetAllAsync (predicate : option (EventRoom.t -> bool)) (tracking : bool)
           (page count : Z) (orderBy : option (EventRoom.t -> Guid)) (descending : bool)
           (include : list Navigation) (db : InMemory.Db) : list EventRoom.t :=
  let matching :=
    match predicate with
    | Some p => filter p (InMemory.Query db)
    | None => InMemory.Query db
    end in
  let ordered :=
    match orderBy with
    | Some key => InMemory.OrderBy key descending matching
    | None => matching
    end in
  map (InMemory.Include include db)
      (firstn (Z.to_nat count) (skipn (Z.to_nat ((page - 1) * count)) ordered)).

(** [EventRoomRepository.GetEventRoomsPagedAsync]: the pair (Items,
    TotalCount). *)
Definition GetEventRoomsPagedAsync (predicate : option (EventRoom.t -> bool))
           (tracking : bool) (page count : Z)
           (orderBy : option (EventRoom.t -> Guid)) (descending : bool)
           (db : InMemory.Db) : list EventRoom.t * Z :=
  (* Include related entities *)
  let include := [NavEvent; NavRoom] in
  (* Get total count *)
  let totalCount :=
    match predicate with
    | Some p => InMemory.GetCount p db
    | None => CountAsync db
    end in
  (* Get paginated items *)
  let items := GetAllAsync predicate tracking page count orderBy descending include db in
  (items, totalCount).

End EventRoomRepository.

(** ** Presentation layer *)

Module CreateEventRoomVM.
Record t := mk { EventId : Guid; RoomId : Guid }.
End CreateEventRoomVM.

Module EventRoomFilterVM.
Record t := mk {
  EventId : option Guid;
  RoomId : option Guid;
  PageNumber : Z;
  PageSize : Z
}.
End EventRoomFilterVM.

Module EventRoomResponse.
Record t := mk {
  Id : Guid;
  EventId : Guid;
  RoomId : Guid;
  Event : option EventDTO.t;
  Room : option RoomDTO.t
}.
End EventRoomResponse.

(** [PaginatedResultResponse<T>] is declared outside the documented feature;
    its members are those of the documented JSON page, the same as
    [PaginatedResultDTO<T>]. *)
Module PaginatedResultResponse.
Record t (T : Type) := mk {
  Items : list T;
  PageIndex : Z;
  PageSize : Z;
  TotalCount : Z;
  TotalPages : Z;
  HasPreviousPage : bool;
  HasNextPage : bool
}.
Arguments mk {T}.
Arguments Items {T}.
Arguments PageIndex {T}.
Arguments PageSize {T}.
Arguments TotalCount {T}.
Arguments TotalPages {T}.
Arguments HasPreviousPage {T}.
Arguments HasNextPage {T}.
End PaginatedResultResponse.

(** [ApiResponse<T>] is declared outside the documented feature; its members
    are those of the documented JSON envelope (success, statusCode, message,
    data), and [SuccessResponse(message, statusCode, data)] fills them with
    [success = true].  [Data] is a nullable reference. *)
Module ApiResponse.
Record t (T : Type) := mk {
  Success : bool;
  StatusCode : Z;
  Message : string;
  Data : option T
}.
Arguments mk {T}.
Arguments Success {T}.
Arguments StatusCode {T}.
Arguments Message {T}.
Arguments Data {T}.

Definition SuccessResponse {T : Type} (message : string) (statusCode : Z) (data : option T)
  : t T :=
  mk true statusCode message data.
End ApiResponse.

(** The rest of the AutoMapper profile [EventRoomMapping]: DTO to response,
    view model to DTO, and the paginated mapping. *)
Module EventRoomMapping.

(** [CreateMap<EventRoomDTO, EventRoomResponse>()]. *)
Definition MapResponse (src : EventRoomDTO.t) : EventRoomResponse.t :=
  EventRoomResponse.mk (EventRoomDTO.Id src) (EventRoomDTO.EventId src)
                       (EventRoomDTO.RoomId src) (EventRoomDTO.Event src)
                       (EventRoomDTO.Room src).

(** [CreateMap<CreateEventRoomVM, CreateEventRoomDTO>()]. *)
Definition MapCreate (vm : CreateEventRoomVM.t) : CreateEventRoomDTO.t :=
  CreateEventRoomDTO.mk (CreateEventRoomVM.EventId vm) (CreateEventRoomVM.RoomId vm).

(** [CreateMap<EventRoomFilterVM, EventRoomFilterDTO>()]. *)
Definition MapFilter (vm : EventRoomFilterVM.t) : EventRoomFilterDTO.t :=
  EventRoomFilterDTO.mk (EventRoomFilterVM.EventId vm) (EventRoomFilterVM.RoomId vm)
                        (EventRoomFilterVM.PageNumber vm) (EventRoomFilterVM.PageSize vm).

(** [CreateMap(typeof(PaginatedResultDTO<>), typeof(PaginatedResultResponse<>))]
    at [EventRoomDTO] and [EventRoomResponse]. *)
Definition MapPage (src : PaginatedResultDTO.t EventRoomDTO.t)
  : PaginatedResultResponse.t EventRoomResponse.t :=
  PaginatedResultResponse.mk
    (map MapResponse (PaginatedResultDTO.Items src))
    (PaginatedResultDTO.PageIndex src) (PaginatedResultDTO.PageSize src)
    (PaginatedResultDTO.TotalCount src) (PaginatedResultDTO.TotalPages src)
    (PaginatedResultDTO.HasPreviousPage src) (PaginatedResultDTO.HasNextPage src).

End EventRoomMapping.

(** What an action hands back: [Created(uri, value)], [Ok(value)] at its two
    payload types, [NoContent()]. *)
Inductive IActionResult :=
| CreatedResult (location : string) (value : ApiResponse.t EventRoomResponse.t)
| OkObjectResult_EventRoom (value : ApiResponse.t EventRoomResponse.t)
| OkObjectResult_Page
    (value : ApiResponse.t (PaginatedResultResponse.t EventRoomResponse.t))
| NoContentResult.

(** The HTTP status of a result: 201, 200, 204. *)
Definition HttpStatus (r : IActionResult) : Z :=
  match r with
  | CreatedResult _ _ => 201
  | OkObjectResult_EventRoom _ => 200
  | OkObjectResult_Page _ => 200
  | NoContentResult => 204
  end.

(** How an action ends when no application exception is thrown: it hands a
    result back, or it dereferences a null reference.  The
    [NullReferenceException] of the runtime is not one of the two exceptions
    of the feature, so it is an outcome of its own. *)
Inductive ActionOutcome :=
| Completed (r : IActionResult)
| NullReference.

(** [IEventRoomUseCase], which the controller is constructed with. *)
Record IEventRoomUseCase := mkUseCase {
  CreateEventRoomAsync : CreateEventRoomDTO.t -> Task (option EventRoomDTO.t);
  GetFilteredEventRoomsAsync : EventRoomFilterDTO.t -> Task (PaginatedResultDTO.t EventRoomDTO.t);
  GetEventRoomAsync : Guid -> Guid -> Task EventRoomDTO.t;
  DeleteEventRoomAsync : Guid -> Guid -> Task unit
}.

(** [services.AddScoped<IEventRoomUseCase, EventRoomUseCase>()]. *)
Definition RegisteredUseCase (indeterminate : double -> Z) : IEventRoomUseCase :=
  mkUseCase EventRoomUseCase.CreateEventRoomAsync
            (EventRoomUseCase.GetFilteredEventRoomsAsync indeterminate)
            EventRoomUseCase.GetEventRoomAsync
            EventRoomUseCase.DeleteEventRoomAsync.

Module EventRoomsController.
Section Controller.

Variable _eventRoomUseCase : IEventRoomUseCase.

Local Open Scope string_scope.

Definition Create (vm : CreateEventRoomVM.t) : Task ActionOutcome :=
  let dto := EventRoomMapping.MapCreate vm in
  bind (CreateEventRoomAsync _eventRoomUseCase dto) (fun resultDto =>
  let resultRes := option_map EventRoomMapping.MapResponse resultDto in
  match resultDto with
  | None => Return NullReference (* resultDto.EventId on a null reference *)
  | Some d =>
      Return (Completed
                (CreatedResult
                   ("/api/v1/EventRooms/" ++ Guid_ToString (EventRoomDTO.EventId d)
                    ++ "/" ++ Guid_ToString (EventRoomDTO.RoomId d))
                   (ApiResponse.SuccessResponse "EventRoom created successfully." 201
                                                resultRes)))
  end).

Definition GetAll (filterVM : EventRoomFilterVM.t) : Task ActionOutcome :=
  let filterDto := EventRoomMapping.MapFilter filterVM in
  bind (GetFilteredEventRoomsAsync _eventRoomUseCase filterDto) (fun result_ =>
  let response := EventRoomMapping.MapPage result_ in
  Return (Completed
            (OkObjectResult_Page
               (ApiResponse.SuccessResponse "EventRooms retrieved successfully." 200
                                            (Some response))))).

Definition GetByIds (eventId roomId : Guid) : Task ActionOutcome :=
  bind (GetEventRoomAsync _eventRoomUseCase eventId roomId) (fun resultDto =>
  let response := EventRoomMapping.MapResponse resultDto in
  Return (Completed
            (OkObjectResult_EventRoom
               (ApiResponse.SuccessResponse "EventRoom retrieved successfully." 200
                                            (Some response))))).

Definition Delete (eventId roomId : Guid) : Task ActionOutcome :=
  bind (DeleteEventRoomAsync _eventRoomUseCase eventId roomId) (fun _ =>
  Return (Completed NoContentResult)).

End Controller.
End EventRoomsController.

(** The number of tracked writes of a call sequence that no later
    [SaveChangesAsync] has committed. *)
Definition unsaved_writes (invocations : list Invocation) : nat :=
  fold_left (fun n i =>
               match i with
               | Invoke UnitOfWork_SaveChangesAsync => O
               | Invoke (EventRooms_AddAsync _) => S n
               | Invoke (EventRooms_DeleteAsync _) => S n
               | Invoke (EventRooms_DeleteByIdsAsync _ _) => S n
               | Invoke _ => n
               end) invocations O.

(** ** Proof steps *)

(** Steps through the next awaited call of a task run by an arbitrary
    handler [h]. *)
Ltac await_next h :=
  cbn [run];
  match goal with
  | |- context [h ?X ?c ?s] =>
      let x := fresh "x" in
      let s' := fresh "s" in
      destruct (h X c s) as [x s'] eqn:?; cbn [result final calls]
  end.

(** ** Lemmas on the in-memory gateway *)

Section FindFacts.
Context {A : Type} (p : A -> bool).

Lemma find_is_null (l : list A) :
  is_null (find p l) = true <-> (forall x, In x l -> p x = false).
Proof.
  induction l as [|a l IH]; simpl.
  - split; [intros _ x []|reflexivity].
  - destruct (p a) eqn:Ha; simpl.
    + split; [discriminate|]. intros H. rewrite (H a) in Ha; [discriminate|now left].
    + rewrite IH. split.
      * intros H x [<-|Hx]; auto.
      * intros H x Hx. apply H. now right.
Qed.

Lemma find_not_null (l : list A) :
  is_null (find p l) = false <-> (exists x, In x l /\ p x = true).
Proof.
  destruct (find p l) as [x|] eqn:Hf; simpl.
  - split; [intros _|reflexivity]. exists x. now apply find_some in Hf.
  - split; [discriminate|]. intros [x [Hx Hp]].
    now rewrite (find_none _ _ Hf x Hx) in Hp.
Qed.
End FindFacts.

Lemma EventById_true (id : Guid) (e : Event.t) : EventById id e = true <-> Event.Id e = id.
Proof. unfold EventById. apply N.eqb_eq. Qed.

Lemma RoomById_true (id : Guid) (r : Room.t) : RoomById id r = true <-> Room.Id r = id.
Proof. unfold RoomById. apply N.eqb_eq. Qed.

Lemma ByKeys_true (eventId roomId : Guid) (er : EventRoom.t) :
  ByKeys eventId roomId er = true
  <-> EventRoom.EventId er = eventId /\ EventRoom.RoomId er = roomId.
Proof. unfold ByKeys. now rewrite andb_true_iff, !N.eqb_eq. Qed.

Lemma event_lookup (db : InMemory.Db) (id : Guid) :
  is_null (InMemory.FindOneAsync (EventById id) (InMemory.Events db)) = false
  <-> EventExists db id.
Proof.
  unfold InMemory.FindOneAsync, EventExists. rewrite find_not_null.
  split; intros [e [He Hp]]; exists e; split; auto; now apply EventById_true.
Qed.

Lemma room_lookup (db : InMemory.Db) (id : Guid) :
  is_null (InMemory.FindOneAsync (RoomById id) (InMemory.Rooms db)) = false
  <-> RoomExists db id.
Proof.
  unfold InMemory.FindOneAsync, RoomExists. rewrite find_not_null.
  split; intros [r [Hr Hp]]; exists r; split; auto; now apply RoomById_true.
Qed.

Lemma link_lookup (db : InMemory.Db) (eventId roomId : Guid) :
  is_null (InMemory.FindOneAsync (ByKeys eventId roomId) (InMemory.Query db)) = false
  <-> Linked db eventId roomId.
Proof.
  unfold InMemory.FindOneAsync, InMemory.Query, Linked. rewrite find_not_null. split.
  - intros [er [Her Hp]]. apply in_map_iff in Her as [r [<- Hr]].
    exists r. split; [assumption|]. now apply ByKeys_true in Hp.
  - intros [r [Hr Hk]]. exists (InMemory.Materialize r). split.
    + now apply in_map.
    + now apply ByKeys_true.
Qed.

Section CreateOnStore.
Import InMemory.
Variables (db : Db) (dto : CreateEventRoomDTO.t).

Let eventId := CreateEventRoomDTO.EventId dto.
Let roomId := CreateEventRoomDTO.RoomId dto.
Let lookEvent := Invoke (Events_FindOneAsync (EventById eventId)).
Let lookRoom := Invoke (Rooms_FindOneAsync (RoomById roomId)).
Let lookLink := Invoke (EventRooms_FindOneAsync (ByKeys eventId roomId)).

(** [CreateEventRoomAsync] on the in-memory gateway, as a decision list
    over the three lookups. *)
Lemma create_on_store :
  run Repositories (EventRoomUseCase.CreateEventRoomAsync dto) db =
  if is_null (FindOneAsync (EventById eventId) (Events db))
  then mkOutcome (Thrown (NotFoundException "Event")) db [lookEvent]
  else if is_null (FindOneAsync (RoomById roomId) (Rooms db))
  then mkOutcome (Thrown (NotFoundException "Room")) db [lookEvent; lookRoom]
  else if negb (is_null (FindOneAsync (ByKeys eventId roomId) (Query db)))
  then mkOutcome
         (Thrown (ConflictException "EventRoom with same Event and Room already exists."))
         db [lookEvent; lookRoom; lookLink]
  else
    let saved := SaveChangesAsync (AddAsync (NewEventRoom dto) db) in
    mkOutcome (Ok (Mapper.Map (FindOneAsync (ByKeys eventId roomId) (Query saved))))
              saved
              [lookEvent; lookRoom; lookLink;
               Invoke (EventRooms_AddAsync (NewEventRoom dto));
               Invoke UnitOfWork_SaveChangesAsync; lookLink].
Proof.
  unfold EventRoomUseCase.CreateEventRoomAsync; cbn [run Repositories].
  fold eventId roomId. change (fun e => (Event.Id e =? eventId)%N) with (EventById eventId).
  change (fun r => (Room.Id r =? roomId)%N) with (RoomById roomId).
  change (fun er => (EventRoom.EventId er =? eventId)%N && (EventRoom.RoomId er =? roomId)%N)
    with (ByKeys eventId roomId).
  destruct (is_null (FindOneAsync (EventById eventId) (Events db))); [reflexivity|].
  cbn [run Repositories].
  destruct (is_null (FindOneAsync (RoomById roomId) (Rooms db))); [reflexivity|].
  cbn [run Repositories].
  destruct (is_null (FindOneAsync (ByKeys eventId roomId) (Query db))); reflexivity.
Qed.
End CreateOnStore.

Lemma save_after_add (db : InMemory.Db) (entity : EventRoom.t) :
  Quiescent db ->
  InMemory.SaveChangesAsync (InMemory.AddAsync entity db) =
  InMemory.mkDb (InMemory.Events db) (InMemory.Rooms db)
    (InMemory.EventRooms db
       ++ [Row.mk (InMemory.NextId db) (EventRoom.EventId entity) (EventRoom.RoomId entity)])
    (N.succ (InMemory.NextId db)) [].
Proof.
  unfold Quiescent, InMemory.SaveChangesAsync, InMemory.AddAsync. simpl.
  intros ->. reflexivity.
Qed.

Lemma save_after_delete (db : InMemory.Db) (predicate : EventRoom.t -> bool) :
  Quiescent db ->
  InMemory.SaveChangesAsync (InMemory.DeleteAsync predicate db) =
  InMemory.mkDb (InMemory.Events db) (InMemory.Rooms db)
    (filter (fun r => negb (predicate (InMemory.Materialize r))) (InMemory.EventRooms db))
    (InMemory.NextId db) [].
Proof.
  unfold Quiescent, InMemory.SaveChangesAsync, InMemory.DeleteAsync. simpl.
  intros ->. reflexivity.
Qed.

Lemma find_appended {A : Type} (p : A -> bool) (l : list A) (x : A) :
  is_null (find p l) = true -> p x = true -> find p (l ++ [x]) = Some x.
Proof.
  induction l as [|a l IH]; simpl; intros Hn Hx.
  - now rewrite Hx.
  - destruct (p a); [discriminate|]. now apply IH.
Qed.

(** The re-read of [CreateEventRoomAsync] after a committed insertion. *)
Lemma reread_after_add (db : InMemory.Db) (dto : CreateEventRoomDTO.t) :
  Quiescent db ->
  is_null (InMemory.FindOneAsync
             (ByKeys (CreateEventRoomDTO.EventId dto) (CreateEventRoomDTO.RoomId dto))
             (InMemory.Query db)) = true ->
  InMemory.FindOneAsync
    (ByKeys (CreateEventRoomDTO.EventId dto) (CreateEventRoomDTO.RoomId dto))
    (InMemory.Query (InMemory.SaveChangesAsync (InMemory.AddAsync (NewEventRoom dto) db)))
  = Some (EventRoom.mk (InMemory.NextId db) (CreateEventRoomDTO.EventId dto)
                       (CreateEventRoomDTO.RoomId dto) None None).
Proof.
  intros Hq Hnone. rewrite (save_after_add _ _ Hq).
  unfold InMemory.FindOneAsync, InMemory.Query in *. simpl.
  rewrite map_app. simpl. apply find_appended; [assumption|].
  unfold ByKeys, InMemory.Materialize. simpl. now rewrite !N.eqb_refl.
Qed.

(** ** Properties of the use case *)

(** C1.  On the in-memory gateway [CreateEventRoomAsync] checks in this
    order and stops at the first failure: no event with the identifier gives
    [NotFoundException "Event"] after the event lookup alone; otherwise no
    room gives [NotFoundException "Room"] after the two lookups; otherwise a
    stored record with the same pair gives [ConflictException] after the
    three lookups; otherwise the record is added, the unit of work saved, the
    record read again by its keys and the mapped re-read returned. *)
Theorem create_checks_in_order (db : InMemory.Db) (dto : CreateEventRoomDTO.t) :
  let eventId := CreateEventRoomDTO.EventId dto in
  let roomId := CreateEventRoomDTO.RoomId dto in
  let o := run InMemory.Repositories (EventRoomUseCase.CreateEventRoomAsync dto) db in
  let lookEvent := Invoke (Events_FindOneAsync (EventById eventId)) in
  let lookRoom := Invoke (Rooms_FindOneAsync (RoomById roomId)) in
  let lookLink := Invoke (EventRooms_FindOneAsync (ByKeys eventId roomId)) in
  (~ EventExists db eventId ->
     result o = Thrown (NotFoundException "Event") /\ calls o = [lookEvent])
  /\ (EventExists db eventId -> ~ RoomExists db roomId ->
     result o = Thrown (NotFoundException "Room") /\ calls o = [lookEvent; lookRoom])
  /\ (EventExists db eventId -> RoomExists db roomId -> Linked db eventId roomId ->
     result o
     = Thrown (ConflictException "EventRoom with same Event and Room already exists.")
     /\ calls o = [lookEvent; lookRoom; lookLink])
  /\ (EventExists db eventId -> RoomExists db roomId -> ~ Linked db eventId roomId ->
     Quiescent db ->
     result o = Ok (Some (EventRoomDTO.mk (InMemory.NextId db) eventId roomId None None))
     /\ final o
        = InMemory.mkDb (InMemory.Events db) (InMemory.Rooms db)
            (InMemory.EventRooms db ++ [Row.mk (InMemory.NextId db) eventId roomId])
            (N.succ (InMemory.NextId db)) []
     /\ calls o
        = [lookEvent; lookRoom; lookLink;
           Invoke (EventRooms_AddAsync (NewEventRoom dto));
           Invoke UnitOfWork_SaveChangesAsync; lookLink]).
Proof.
  intros eventId roomId o lookEvent lookRoom lookLink.
  subst o. rewrite create_on_store. fold eventId roomId.
  pose proof (event_lookup db eventId) as He.
  pose proof (room_lookup db roomId) as Hr.
  pose proof (link_lookup db eventId roomId) as Hl.
  destruct (is_null (InMemory.FindOneAsync (EventById eventId) (InMemory.Events db))).
  { assert (Hno : ~ EventExists db eventId) by (intros Hex; apply He in Hex; discriminate).
    split; [intros _; split; reflexivity|].
    split; [intros Hex; contradiction|].
    split; intros Hex; contradiction. }
  assert (Hev : EventExists db eventId) by now apply He.
  split; [intros Hn; contradiction|].
  destruct (is_null (InMemory.FindOneAsync (RoomById roomId) (InMemory.Rooms db))).
  { assert (Hno : ~ RoomExists db roomId) by (intros Hex; apply Hr in Hex; discriminate).
    split; [intros _ _; split; reflexivity|].
    split; intros _ Hex; contradiction. }
  assert (Hrm : RoomExists db roomId) by now apply Hr.
  split; [intros _ Hn; contradiction|].
  destruct (is_null (InMemory.FindOneAsync (ByKeys eventId roomId) (InMemory.Query db)))
    eqn:Hnull; simpl negb; cbv iota.
  - assert (Hno : ~ Linked db eventId roomId) by (intros Hex; apply Hl in Hex; discriminate).
    split; [intros _ _ Hex; contradiction|].
    intros _ _ _ Hq. cbn [result final calls]. subst eventId roomId.
    rewrite (reread_after_add db dto Hq Hnull), (save_after_add _ _ Hq).
    repeat split.
  - assert (Hlk : Linked db eventId roomId) by now apply Hl.
    split; [intros _ _ _; split; reflexivity|].
    intros _ _ Hn; contradiction.
Qed.

(** C2.  Whenever [CreateEventRoomAsync] throws, it has made no writing call
    (whatever the gateway is, the calls so far are lookups only, and the
    exception is one of the two NotFound or the Conflict), and on the
    in-memory gateway the database, tracked changes included, is the one it
    started from. *)
Theorem create_failure_writes_nothing (dto : CreateEventRoomDTO.t) :
  (forall (S : Type) (h : Handler S) (s : S) (e : Exception),
      result (run h (EventRoomUseCase.CreateEventRoomAsync dto) s) = Thrown e ->
      forallb (fun i => negb (mutating i))
              (calls (run h (EventRoomUseCase.CreateEventRoomAsync dto) s)) = true
      /\ (e = NotFoundException "Event"
          \/ e = NotFoundException "Room"
          \/ e = ConflictException "EventRoom with same Event and Room already exists."))
  /\ (forall (db : InMemory.Db) (e : Exception),
      result (run InMemory.Repositories (EventRoomUseCase.CreateEventRoomAsync dto) db)
      = Thrown e ->
      final (run InMemory.Repositories (EventRoomUseCase.CreateEventRoomAsync dto) db) = db).
Proof.
  split.
  - intros S h s e. unfold EventRoomUseCase.CreateEventRoomAsync.
    await_next h. destruct x as [ev|]; cbn [is_null].
    2:{ cbn [run result calls]. intros [= <-]. split; [reflexivity|now left]. }
    await_next h. destruct x as [rm|]; cbn [is_null].
    2:{ cbn [run result calls]. intros [= <-]. split; [reflexivity|now right; left]. }
    await_next h. destruct x as [dup|]; cbn [is_null negb].
    { cbn [run result calls]. intros [= <-]. split; [reflexivity|now right; right]. }
    await_next h. await_next h. await_next h. cbn [run result]. discriminate.
  - intros db e. rewrite create_on_store.
    destruct (is_null _); [reflexivity|].
    destruct (is_null _); [reflexivity|].
    destruct (is_null _); cbn [negb]; cbv iota; [|reflexivity].
    cbn [result]. discriminate.
Qed.

(** ** The read paths and the deletion on the in-memory gateway *)

Lemma get_on_store (db : InMemory.Db) (eventId roomId : Guid) :
  run InMemory.Repositories (EventRoomUseCase.GetEventRoomAsync eventId roomId) db =
  mkOutcome
    match InMemory.FindOneAsync (ByKeys eventId roomId) (InMemory.Query db) with
    | None => Thrown (NotFoundException "EventRoom")
    | Some found => Ok (Mapper.MapEventRoom found)
    end
    db [Invoke (EventRooms_FindOneAsync (ByKeys eventId roomId))].
Proof.
  unfold EventRoomUseCase.GetEventRoomAsync; cbn [run InMemory.Repositories].
  change (fun er => (EventRoom.EventId er =? eventId)%N && (EventRoom.RoomId er =? roomId)%N)
    with (ByKeys eventId roomId).
  destruct (InMemory.FindOneAsync (ByKeys eventId roomId) (InMemory.Query db)); reflexivity.
Qed.

Lemma delete_on_store (db : InMemory.Db) (eventId roomId : Guid) :
  run InMemory.Repositories (EventRoomUseCase.DeleteEventRoomAsync eventId roomId) db =
  if is_null (InMemory.FindOneAsync (ByKeys eventId roomId) (InMemory.Query db))
  then mkOutcome (Thrown (NotFoundException (DeleteNotFoundMessage eventId roomId))) db
                 [Invoke (EventRooms_FindOneAsync (ByKeys eventId roomId))]
  else mkOutcome (Ok tt)
                 (InMemory.SaveChangesAsync (InMemory.DeleteAsync (ByKeys eventId roomId) db))
                 [Invoke (EventRooms_FindOneAsync (ByKeys eventId roomId));
                  Invoke (EventRooms_DeleteAsync (ByKeys eventId roomId));
                  Invoke UnitOfWork_SaveChangesAsync].
Proof.
  unfold EventRoomUseCase.DeleteEventRoomAsync; cbn [run InMemory.Repositories].
  change (fun er => (EventRoom.EventId er =? eventId)%N && (EventRoom.RoomId er =? roomId)%N)
    with (ByKeys eventId roomId).
  destruct (is_null (InMemory.FindOneAsync (ByKeys eventId roomId) (InMemory.Query db)));
    reflexivity.
Qed.

Lemma list_on_store (indeterminate : double -> Z) (db : InMemory.Db)
      (filterDto : EventRoomFilterDTO.t) :
  run InMemory.Repositories
      (EventRoomUseCase.GetFilteredEventRoomsAsync indeterminate filterDto) db =
  let totalCount := InMemory.GetCount (FilterPredicate filterDto) db in
  let totalPages :=
    ToInt32 indeterminate
      (Math_Ceiling (div_double totalCount (EventRoomFilterDTO.PageSize filterDto))) in
  mkOutcome
    (Ok (PaginatedResultDTO.mk
           (Mapper.MapList
              (InMemory.GetAllAsync (FilterPredicate filterDto) false
                 (EventRoomFilterDTO.PageNumber filterDto)
                 (EventRoomFilterDTO.PageSize filterDto)
                 [NavEvent; NavRoom] EventRoom.Id false db))
           (EventRoomFilterDTO.PageNumber filterDto)
           (EventRoomFilterDTO.PageSize filterDto)
           totalCount totalPages
           (1 <? EventRoomFilterDTO.PageNumber filterDto)
           (EventRoomFilterDTO.PageNumber filterDto <? totalPages)))
    db
    [Invoke (EventRooms_GetCount (FilterPredicate filterDto)); Invoke (PageQuery filterDto)].
Proof. reflexivity. Qed.

(** ** Uniqueness of the composite key *)

Lemma ByKeys_Materialize (eventId roomId : Guid) (r : Row.t) :
  ByKeys eventId roomId (InMemory.Materialize r) = true <-> Key r = (eventId, roomId).
Proof.
  rewrite ByKeys_true. unfold Key; simpl. split.
  - now intros [-> ->].
  - now intros [= -> ->].
Qed.

(** Dropping rows keeps their keys distinct. *)
Lemma distinct_keys_filter {Row K : Type} (key : Row -> K) (keep : Row -> bool) :
  forall rows, NoDup (map key rows) -> NoDup (map key (filter keep rows)).
Proof.
  intros rows. induction rows as [|a rows IH]; simpl; intros Hnd; [constructor|].
  inversion Hnd as [|? ? Hnotin Hrest]; subst.
  destruct (keep a); simpl; [constructor|]; auto.
  intros Hin. apply Hnotin. apply in_map_iff in Hin as [x [Hfx Hx]].
  apply filter_In in Hx as [Hx _]. apply in_map_iff. now exists x.
Qed.

(** Appending a row whose key is new keeps the keys distinct. *)
Lemma distinct_keys_snoc {Row K : Type} (key : Row -> K) (added : Row) :
  forall rows, NoDup (map key rows) ->
               (forall y, In y rows -> key y <> key added) ->
               NoDup (map key (rows ++ [added])).
Proof.
  intros rows Hnd Hfresh. rewrite map_app. apply NoDup_app; [assumption| |].
  - simpl. constructor; [intros []|constructor].
  - intros b Hb [<-|[]]. apply in_map_iff in Hb as [y [Hy Hin]].
    now apply (Hfresh y Hin).
Qed.

Lemma unique_key_count (rows : list Row.t) (eventId roomId : Guid) :
  NoDup (map Key rows) ->
  (List.length (filter (fun r => ByKeys eventId roomId (InMemory.Materialize r)) rows) <= 1)%nat.
Proof.
  induction rows as [|a rows IH]; simpl; intros Hnd; [lia|].
  inversion Hnd as [|? ? Hnotin Hrest]; subst.
  destruct (ByKeys eventId roomId (InMemory.Materialize a)) eqn:Ha; [|auto].
  apply ByKeys_Materialize in Ha.
  replace (filter (fun r => ByKeys eventId roomId (InMemory.Materialize r)) rows) with (@nil Row.t);
    [simpl; lia|].
  symmetry. clear IH Hnd Hrest. induction rows as [|b rows IH]; simpl; [reflexivity|].
  destruct (ByKeys eventId roomId (InMemory.Materialize b)) eqn:Hb.
  - apply ByKeys_Materialize in Hb. exfalso. apply Hnotin. left. congruence.
  - apply IH. intros Hin. apply Hnotin. now right.
Qed.

(** One request keeps the store quiescent and its keys unique. *)
Lemma serve_keeps_unique (indeterminate : double -> Z) (req : Request) (db : InMemory.Db) :
  Quiescent db -> UniqueKeys db ->
  Quiescent (serve indeterminate req db) /\ UniqueKeys (serve indeterminate req db).
Proof.
  intros Hq Hu. destruct req as [dto|filterDto|eventId roomId|eventId roomId]; unfold serve.
  - rewrite create_on_store.
    destruct (is_null _); [now split|].
    destruct (is_null _); [now split|].
    destruct (is_null (InMemory.FindOneAsync _ (InMemory.Query db))) eqn:Hnull;
      cbn [negb]; cbv iota; [|now split].
    cbn [final]. rewrite (save_after_add _ _ Hq). split; [reflexivity|].
    unfold UniqueKeys; cbn [InMemory.EventRooms]. apply distinct_keys_snoc; [assumption|].
    intros y Hy Heq. unfold InMemory.FindOneAsync in Hnull.
    rewrite find_is_null in Hnull.
    assert (Hfalse : ByKeys (CreateEventRoomDTO.EventId dto) (CreateEventRoomDTO.RoomId dto)
                            (InMemory.Materialize y) = false).
    { apply Hnull. unfold InMemory.Query. now apply in_map. }
    assert (Htrue : ByKeys (CreateEventRoomDTO.EventId dto) (CreateEventRoomDTO.RoomId dto)
                           (InMemory.Materialize y) = true).
    { apply ByKeys_Materialize. exact Heq. }
    congruence.
  - rewrite list_on_store. now split.
  - rewrite get_on_store. now split.
  - rewrite delete_on_store. destruct (is_null _); [now split|].
    cbn [final]. rewrite (save_after_delete _ _ Hq). split; [reflexivity|].
    unfold UniqueKeys; cbn [InMemory.EventRooms]. now apply distinct_keys_filter.
Qed.

Lemma replay_keeps_unique (indeterminate : double -> Z) (reqs : list Request) :
  forall db, Quiescent db -> UniqueKeys db ->
             Quiescent (replay indeterminate reqs db)
             /\ UniqueKeys (replay indeterminate reqs db).
Proof.
  induction reqs as [|req reqs IH]; intros db Hq Hu; [now split|].
  unfold replay; simpl. fold (replay indeterminate reqs (serve indeterminate req db)).
  destruct (serve_keeps_unique indeterminate req db Hq Hu) as [Hq' Hu'].
  now apply IH.
Qed.

(** C3.  From a store without association records and without unsaved
    changes, after any sequence of create, list, get and delete requests the
    composite keys of the stored records are pairwise distinct: for every
    pair (eventId, roomId) at most one record is stored. *)
Theorem composite_key_unique (indeterminate : double -> Z) (db0 : InMemory.Db)
        (reqs : list Request) :
  InMemory.EventRooms db0 = [] -> Quiescent db0 ->
  let rows := InMemory.EventRooms (replay indeterminate reqs db0) in
  NoDup (map Key rows)
  /\ forall eventId roomId,
      (List.length (filter (fun r => ByKeys eventId roomId (InMemory.Materialize r)) rows)
       <= 1)%nat.
Proof.
  intros Hempty Hq rows.
  assert (Hu : NoDup (map Key rows)).
  { apply (replay_keeps_unique indeterminate reqs db0 Hq).
    unfold UniqueKeys. rewrite Hempty. constructor. }
  split; [exact Hu|]. intros eventId roomId. now apply unique_key_count.
Qed.

Lemma get_not_found_iff (db : InMemory.Db) (eventId roomId : Guid) :
  result (run InMemory.Repositories (EventRoomUseCase.GetEventRoomAsync eventId roomId) db)
  = Thrown (NotFoundException "EventRoom")
  <-> ~ Linked db eventId roomId.
Proof.
  rewrite get_on_store; cbn [result]. rewrite <- link_lookup.
  destruct (InMemory.FindOneAsync _ _); simpl; split; congruence.
Qed.

(** Whatever the store, a record returned by [GetEventRoomAsync] has neither
    navigation property resolved. *)
Lemma get_never_resolves (db : InMemory.Db) (eventId roomId : Guid) (dto : EventRoomDTO.t) :
  result (run InMemory.Repositories (EventRoomUseCase.GetEventRoomAsync eventId roomId) db)
  = Ok dto ->
  EventRoomDTO.Event dto = None /\ EventRoomDTO.Room dto = None.
Proof.
  rewrite get_on_store; cbn [result].
  destruct (InMemory.FindOneAsync _ _) as [found|] eqn:Hf; [|discriminate].
  intros [= <-]. unfold InMemory.FindOneAsync, InMemory.Query in Hf.
  apply find_some in Hf as [Hin _]. apply in_map_iff in Hin as [r [<- _]].
  split; reflexivity.
Qed.

(** C4.  [GetEventRoomAsync] evaluated where the event, the room and their
    association are stored: the only call is the base [FindOneAsync] by the
    composite key, and the returned record has no [Event] and no [Room],
    whereas [GetByIdsAsync] of the repository resolves both on the same
    store. *)
Theorem get_returns_unresolved_projections :
  run InMemory.Repositories
      (EventRoomUseCase.GetEventRoomAsync Sample.eventId Sample.roomId) Sample.linked
  = mkOutcome
      (Ok (EventRoomDTO.mk Sample.generatedId Sample.eventId Sample.roomId None None))
      Sample.linked
      [Invoke (EventRooms_FindOneAsync (ByKeys Sample.eventId Sample.roomId))]
  /\ InMemory.GetByIdsAsync Sample.eventId Sample.roomId Sample.linked
     = Some (EventRoom.mk Sample.generatedId Sample.eventId Sample.roomId
                          (Some Sample.TechConference) (Some Sample.Room101)).
Proof. split; reflexivity. Qed.

(** C5, as stated, fails on the exception's argument: on a store without the
    association [DeleteEventRoomAsync] throws [NotFoundException] with a
    message that names the two identifiers, which is not
    [NotFoundException "EventRoom"]. *)
Lemma delete_message_is_not_the_resource_name :
  let thrown :=
    result (run InMemory.Repositories
                (EventRoomUseCase.DeleteEventRoomAsync Sample.eventId Sample.roomId)
                Sample.unlinked) in
  ~ Linked Sample.unlinked Sample.eventId Sample.roomId
  /\ thrown
     = Thrown (NotFoundException
                 "EventRoom with EventId=550e8400-e29b-41d4-a716-446655440000 and RoomId=6ba7b810-9dad-11d1-80b4-00c04fd430c8 not found")
  /\ thrown <> Thrown (NotFoundException "EventRoom").
Proof.
  cbv zeta. split; [intros (r & [] & _)|]. split; [reflexivity|].
  vm_compute. discriminate.
Qed.

(** C5, amended.  On a quiescent store [DeleteEventRoomAsync] throws
    [NotFoundException] with the message
    "EventRoom with EventId=<eventId> and RoomId=<roomId> not found" exactly
    when no record with the composite key is stored, leaving the store as it
    was; otherwise it succeeds, removes the records with that key and no
    other, and a second deletion of the same key throws the same
    [NotFoundException]. *)
Theorem delete_not_found_exactly_when_absent (db : InMemory.Db) (eventId roomId : Guid) :
  Quiescent db ->
  let o := run InMemory.Repositories
               (EventRoomUseCase.DeleteEventRoomAsync eventId roomId) db in
  let notFound := Thrown (NotFoundException (DeleteNotFoundMessage eventId roomId)) in
  (result o = notFound <-> ~ Linked db eventId roomId)
  /\ (~ Linked db eventId roomId -> final o = db)
  /\ (Linked db eventId roomId ->
      result o = Ok tt
      /\ final o
         = InMemory.mkDb (InMemory.Events db) (InMemory.Rooms db)
             (filter (fun r => negb (ByKeys eventId roomId (InMemory.Materialize r)))
                     (InMemory.EventRooms db))
             (InMemory.NextId db) []
      /\ (forall r, In r (InMemory.EventRooms (final o))
                    <-> In r (InMemory.EventRooms db) /\ Key r <> (eventId, roomId))
      /\ result (run InMemory.Repositories
                     (EventRoomUseCase.DeleteEventRoomAsync eventId roomId) (final o))
         = notFound).
Proof.
  intros Hq o notFound. subst o notFound. rewrite delete_on_store.
  pose proof (link_lookup db eventId roomId) as Hl.
  destruct (is_null (InMemory.FindOneAsync (ByKeys eventId roomId) (InMemory.Query db))).
  - assert (Hno : ~ Linked db eventId roomId) by (intros Hex; apply Hl in Hex; discriminate).
    cbn [result final]. split; [tauto|]. split; [reflexivity|]. intros Hex; contradiction.
  - assert (Hlk : Linked db eventId roomId) by now apply Hl.
    cbn [result final]. rewrite (save_after_delete _ _ Hq).
    split; [split; [discriminate|intros Hn; contradiction]|].
    split; [intros Hn; contradiction|]. intros _.
    assert (Hrows : forall r,
               In r (filter (fun r => negb (ByKeys eventId roomId (InMemory.Materialize r)))
                            (InMemory.EventRooms db))
               <-> In r (InMemory.EventRooms db) /\ Key r <> (eventId, roomId)).
    { intros r. rewrite filter_In, negb_true_iff, <- ByKeys_Materialize.
      destruct (ByKeys eventId roomId (InMemory.Materialize r)); intuition congruence. }
    split; [reflexivity|]. split; [reflexivity|]. split; [exact Hrows|].
    rewrite delete_on_store.
    match goal with |- context [is_null ?x] => destruct (is_null x) eqn:Hnull end;
      [reflexivity|].
    exfalso. apply link_lookup in Hnull as [r [Hin [He Hr]]].
    cbn [InMemory.EventRooms] in Hin. apply Hrows in Hin as [_ Hneq].
    apply Hneq. unfold Key. now rewrite He, Hr.
Qed.

(** ** Listing: ordering, paging and counting *)

Lemma insert_sorted_perm {A : Type} (le : A -> A -> bool) (x : A) (l : list A) :
  Permutation (InMemory.insert_sorted le x l) (x :: l).
Proof.
  induction l as [|y l IH]; simpl; [reflexivity|].
  destruct (le x y); [reflexivity|].
  rewrite IH. apply perm_swap.
Qed.

Lemma sort_perm {A : Type} (le : A -> A -> bool) (l : list A) :
  Permutation (InMemory.sort le l) l.
Proof.
  induction l as [|x l IH]; simpl; [reflexivity|].
  rewrite insert_sorted_perm. now constructor.
Qed.

Lemma OrderBy_perm (key : EventRoom.t -> Guid) (descending : bool) (l : list EventRoom.t) :
  Permutation (InMemory.OrderBy key descending l) l.
Proof. apply sort_perm. Qed.

Lemma in_page {A : Type} (offset limit : nat) (l : list A) (x : A) :
  In x (firstn limit (skipn offset l)) -> In x l.
Proof.
  intros Hin.
  rewrite <- (firstn_skipn offset l). apply in_or_app; right.
  rewrite <- (firstn_skipn limit (skipn offset l)). apply in_or_app; now left.
Qed.

Lemma filter_Query (p : EventRoom.t -> bool) (db : InMemory.Db) :
  filter p (InMemory.Query db)
  = map InMemory.Materialize
        (filter (fun r => p (InMemory.Materialize r)) (InMemory.EventRooms db)).
Proof.
  unfold InMemory.Query. induction (InMemory.EventRooms db) as [|r rows IH]; simpl;
    [reflexivity|].
  destruct (p (InMemory.Materialize r)); simpl; now rewrite IH.
Qed.

Lemma FilterPredicate_true (filterDto : EventRoomFilterDTO.t) (er : EventRoom.t) :
  FilterPredicate filterDto er = true
  <-> (EventRoomFilterDTO.EventId filterDto = None
       \/ EventRoomFilterDTO.EventId filterDto = Some (EventRoom.EventId er))
      /\ (EventRoomFilterDTO.RoomId filterDto = None
          \/ EventRoomFilterDTO.RoomId filterDto = Some (EventRoom.RoomId er)).
Proof.
  unfold FilterPredicate. rewrite andb_true_iff, !orb_true_iff.
  assert (Hnull : forall x : option Guid, is_null x = true <-> x = None)
    by (intros [v|]; simpl; split; congruence).
  assert (Heq : forall (g : Guid) (x : option Guid),
             Guid_eq_nullable g x = true <-> x = Some g).
  { intros g [v|]; simpl; [|split; discriminate].
    rewrite N.eqb_eq. split; congruence. }
  now rewrite !Hnull, !Heq.
Qed.

(** The listing under an arbitrary gateway: two calls, then a page built from
    their answers; it never throws. *)
Lemma list_on_any (indeterminate : double -> Z) (S : Type) (h : Handler S) (s : S)
      (filterDto : EventRoomFilterDTO.t) :
  let counted := h _ (EventRooms_GetCount (FilterPredicate filterDto)) s in
  let paged := h _ (PageQuery filterDto) (snd counted) in
  let totalPages :=
    ToInt32 indeterminate
      (Math_Ceiling (div_double (fst counted) (EventRoomFilterDTO.PageSize filterDto))) in
  run h (EventRoomUseCase.GetFilteredEventRoomsAsync indeterminate filterDto) s =
  mkOutcome
    (Ok (PaginatedResultDTO.mk
           (Mapper.MapList (fst paged))
           (EventRoomFilterDTO.PageNumber filterDto)
           (EventRoomFilterDTO.PageSize filterDto)
           (fst counted) totalPages
           (1 <? EventRoomFilterDTO.PageNumber filterDto)
           (EventRoomFilterDTO.PageNumber filterDto <? totalPages)))
    (snd paged)
    [Invoke (EventRooms_GetCount (FilterPredicate filterDto)); Invoke (PageQuery filterDto)].
Proof.
  intros counted paged totalPages. subst totalPages paged counted.
  unfold EventRoomUseCase.GetFilteredEventRoomsAsync. cbn [run].
  fold (FilterPredicate filterDto).
  destruct (h Z (EventRooms_GetCount (FilterPredicate filterDto)) s) as [c s1].
  cbn [fst snd].
  change (EventRooms_GetAllAsync (FilterPredicate filterDto) false
            (EventRoomFilterDTO.PageNumber filterDto)
            (EventRoomFilterDTO.PageSize filterDto) [NavEvent; NavRoom]
            (fun er => EventRoom.Id er) false) with (PageQuery filterDto).
  destruct (h _ (PageQuery filterDto) s1) as [l s2]. reflexivity.
Qed.

(** C6.  The predicate that [GetFilteredEventRoomsAsync] hands to both the
    count and the page query holds of a record exactly when (the filter's
    EventId is unset or equals the record's) and (the filter's RoomId is unset
    or equals the record's); with both unset it holds of every record.  On
    the in-memory gateway the total counts exactly the stored records that
    satisfy it, every returned item is such a record, and when the first
    page is large enough for the total every such record is returned. *)
Theorem list_matches_filter (indeterminate : double -> Z) (filterDto : EventRoomFilterDTO.t) :
  (forall er, FilterPredicate filterDto er = true
              <-> (EventRoomFilterDTO.EventId filterDto = None
                   \/ EventRoomFilterDTO.EventId filterDto = Some (EventRoom.EventId er))
                  /\ (EventRoomFilterDTO.RoomId filterDto = None
                      \/ EventRoomFilterDTO.RoomId filterDto = Some (EventRoom.RoomId er)))
  /\ (EventRoomFilterDTO.EventId filterDto = None ->
      EventRoomFilterDTO.RoomId filterDto = None ->
      forall er, FilterPredicate filterDto er = true)
  /\ (forall (S : Type) (h : Handler S) (s : S),
         calls (run h (EventRoomUseCase.GetFilteredEventRoomsAsync indeterminate filterDto) s)
         = [Invoke (EventRooms_GetCount (FilterPredicate filterDto));
            Invoke (EventRooms_GetAllAsync (FilterPredicate filterDto) false
                      (EventRoomFilterDTO.PageNumber filterDto)
                      (EventRoomFilterDTO.PageSize filterDto)
                      [NavEvent; NavRoom] EventRoom.Id false)])
  /\ (forall (db : InMemory.Db) (page : PaginatedResultDTO.t EventRoomDTO.t),
         result (run InMemory.Repositories
                     (EventRoomUseCase.GetFilteredEventRoomsAsync indeterminate filterDto) db)
         = Ok page ->
         let matches := fun r => FilterPredicate filterDto (InMemory.Materialize r) in
         PaginatedResultDTO.TotalCount page
         = Z.of_nat (List.length (filter matches (InMemory.EventRooms db)))
         /\ (forall item, In item (PaginatedResultDTO.Items page) ->
                          exists r, In r (InMemory.EventRooms db)
                                    /\ matches r = true /\ item = ListedItem db r)
         /\ (EventRoomFilterDTO.PageNumber filterDto = 1 ->
             PaginatedResultDTO.TotalCount page <= EventRoomFilterDTO.PageSize filterDto ->
             forall r, In r (InMemory.EventRooms db) -> matches r = true ->
                       In (ListedItem db r) (PaginatedResultDTO.Items page))).
Proof.
  split; [intros er; apply FilterPredicate_true|].
  split.
  { intros He Hr er. apply FilterPredicate_true. split; now left. }
  split.
  { intros S h s. pose proof (list_on_any indeterminate S h s filterDto) as H.
    cbv zeta in H. now rewrite H. }
  intros db page. rewrite list_on_store. cbv zeta. cbn [result]. intros [= <-].
  cbn [PaginatedResultDTO.TotalCount PaginatedResultDTO.Items].
  unfold InMemory.GetCount, InMemory.GetAllAsync, Mapper.MapList.
  rewrite filter_Query, length_map.
  split; [reflexivity|]. split.
  - intros item Hin. rewrite map_map in Hin. apply in_map_iff in Hin as [er [<- Her]].
    apply in_page in Her. apply (Permutation_in _ (OrderBy_perm _ _ _)) in Her.
    apply in_map_iff in Her as [r [<- Hr]]. apply filter_In in Hr as [Hr Hm].
    exists r. repeat split; assumption.
  - intros Hp Hsize r Hr Hm. rewrite Hp in *. simpl Z.to_nat. rewrite skipn_O.
    rewrite firstn_all2.
    + rewrite map_map. unfold ListedItem.
      apply (in_map (fun x => Mapper.MapEventRoom (InMemory.Include [NavEvent; NavRoom] db x))).
      apply (Permutation_in _ (Permutation_sym (OrderBy_perm _ _ _))).
      apply in_map. apply filter_In. now split.
    + rewrite (Permutation_length (OrderBy_perm _ _ _)), length_map. lia.
Qed.

(** [(int)Math.Ceiling(c / (double)n)] for a count [c] and a positive page
    size [n] is the ceiling of [c / n]: the least [k] with [c <= n * k]. *)
Lemma total_pages_is_ceiling (indeterminate : double -> Z) (c n : Z) :
  1 <= n -> 0 <= c <= Int32_MaxValue ->
  let k := ToInt32 indeterminate (Math_Ceiling (div_double c n)) in
  n * (k - 1) < c <= n * k.
Proof.
  intros Hn Hc. unfold div_double.
  destruct (Z.compare_spec n 0) as [H|H|H]; try lia.
  cbn [Math_Ceiling ToInt32 inject_Z Qnum Qden]. rewrite Z.quot_1_r.
  set (k := Qceiling (c # Z.to_pos n)).
  assert (Hk : n * (k - 1) < c <= n * k).
  { subst k. unfold Qceiling, Qfloor, Qopp. cbn [Qnum Qden].
    rewrite Z2Pos.id by lia.
    pose proof (Z.div_mod (- c) n ltac:(lia)) as Hdm.
    pose proof (Z.mod_pos_bound (- c) n ltac:(lia)) as Hmod.
    nia. }
  assert (Hrange : (Int32_MinValue <=? k) && (k <=? Int32_MaxValue) = true).
  { unfold Int32_MinValue, Int32_MaxValue in *.
    apply andb_true_iff; split; [apply Z.leb_le|apply Z.leb_le]; nia. }
  cbv zeta. now rewrite Hrange.
Qed.

(** C7.  On the in-memory gateway, for a page number [p >= 1] and a page
    size [n >= 1] (and a record count that fits an [int]) the listing
    succeeds without changing the store and returns: TotalCount, the number
    of matching records; TotalPages, the ceiling of TotalCount / n (the least
    [k] with [TotalCount <= n * k], that is [(TotalCount + n - 1) / n]); as items
    the matching records in ascending order of their identifier, from offset
    [(p-1)*n], at most [n] of them; HasPreviousPage exactly when [p > 1];
    HasNextPage exactly when [p < TotalPages]; and no item at all, with the
    same counts, when [p] is beyond TotalPages. *)
Theorem list_pagination (indeterminate : double -> Z) (db : InMemory.Db)
        (filterDto : EventRoomFilterDTO.t) :
  let p := EventRoomFilterDTO.PageNumber filterDto in
  let n := EventRoomFilterDTO.PageSize filterDto in
  1 <= p -> 1 <= n ->
  Z.of_nat (List.length (InMemory.EventRooms db)) <= Int32_MaxValue ->
  let matching := filter (FilterPredicate filterDto) (InMemory.Query db) in
  exists page,
    run InMemory.Repositories
        (EventRoomUseCase.GetFilteredEventRoomsAsync indeterminate filterDto) db
    = mkOutcome (Ok page) db
        [Invoke (EventRooms_GetCount (FilterPredicate filterDto));
         Invoke (PageQuery filterDto)]
    /\ PaginatedResultDTO.TotalCount page = Z.of_nat (List.length matching)
    /\ n * (PaginatedResultDTO.TotalPages page - 1) < PaginatedResultDTO.TotalCount page
       /\ PaginatedResultDTO.TotalCount page <= n * PaginatedResultDTO.TotalPages page
    /\ PaginatedResultDTO.TotalPages page = (PaginatedResultDTO.TotalCount page + n - 1) / n
    /\ PaginatedResultDTO.Items page
       = map (fun er => Mapper.MapEventRoom (InMemory.Include [NavEvent; NavRoom] db er))
             (firstn (Z.to_nat n)
                     (skipn (Z.to_nat ((p - 1) * n))
                            (InMemory.OrderBy EventRoom.Id false matching)))
    /\ Z.of_nat (List.length (PaginatedResultDTO.Items page)) <= n
    /\ PaginatedResultDTO.PageIndex page = p
    /\ PaginatedResultDTO.PageSize page = n
    /\ (PaginatedResultDTO.HasPreviousPage page = true <-> 1 < p)
    /\ (PaginatedResultDTO.HasNextPage page = true <-> p < PaginatedResultDTO.TotalPages page)
    /\ (PaginatedResultDTO.TotalPages page < p -> PaginatedResultDTO.Items page = []).
Proof.
  intros p n Hp Hn Hfit matching.
  rewrite list_on_store. cbv zeta. eexists. split; [reflexivity|].
  cbn [PaginatedResultDTO.TotalCount PaginatedResultDTO.TotalPages PaginatedResultDTO.Items
       PaginatedResultDTO.PageIndex PaginatedResultDTO.PageSize
       PaginatedResultDTO.HasPreviousPage PaginatedResultDTO.HasNextPage].
  fold p n. unfold InMemory.GetCount. fold matching.
  set (c := Z.of_nat (List.length matching)).
  set (k := ToInt32 indeterminate (Math_Ceiling (div_double c n))).
  assert (Hc : 0 <= c <= Int32_MaxValue).
  { subst c matching. split; [lia|]. rewrite filter_Query, length_map.
    pose proof (filter_length_le (fun r => FilterPredicate filterDto (InMemory.Materialize r))
                                 (InMemory.EventRooms db)). lia. }
  pose proof (total_pages_is_ceiling indeterminate c n Hn Hc) as Hk. cbv zeta in Hk. fold k in Hk.
  split; [reflexivity|]. split; [lia|]. split; [lia|].
  split; [apply (Z.div_unique (c + n - 1) n k (c + n - 1 - n * k)); lia|].
  unfold InMemory.GetAllAsync, Mapper.MapList. fold matching. rewrite map_map.
  split; [reflexivity|]. split.
  { rewrite length_map.
    pose proof (firstn_le_length (Z.to_nat n)
                  (skipn (Z.to_nat ((p - 1) * n))
                         (InMemory.OrderBy EventRoom.Id false matching))). lia. }
  split; [reflexivity|]. split; [reflexivity|].
  split; [apply Z.ltb_lt|]. split; [apply Z.ltb_lt|].
  intros Hbeyond. rewrite skipn_all2; [now rewrite firstn_nil|].
  rewrite (Permutation_length (OrderBy_perm _ _ _)). fold c in Hk. nia.
Qed.

Lemma filter_none {A : Type} (p : A -> bool) (l : list A) :
  (forall x, In x l -> p x = false) -> filter p l = [].
Proof.
  induction l as [|a l IH]; simpl; intros H; [reflexivity|].
  rewrite (H a) by now left. apply IH. intros x Hx. apply H. now right.
Qed.

(** A filter on an identifier that no stored record carries matches nothing. *)
Lemma no_match_for_unlinked_id (db : InMemory.Db) (filterDto : EventRoomFilterDTO.t) :
  NamesUnlinkedEntity db filterDto ->
  filter (FilterPredicate filterDto) (InMemory.Query db) = [].
Proof.
  intros Hunlinked. rewrite filter_Query.
  replace (filter (fun r => FilterPredicate filterDto (InMemory.Materialize r))
                  (InMemory.EventRooms db)) with (@nil Row.t); [reflexivity|].
  symmetry. apply filter_none. intros r Hr.
  destruct (FilterPredicate filterDto (InMemory.Materialize r)) eqn:Hm; [|reflexivity].
  exfalso. apply FilterPredicate_true in Hm as [He Hrm].
  cbn [InMemory.Materialize EventRoom.EventId EventRoom.RoomId] in He, Hrm.
  destruct Hunlinked as [[id [Hid Hno]]|[id [Hid Hno]]].
  - destruct He as [He|He]; rewrite Hid in He; [discriminate|].
    injection He as ->. now apply (Hno r Hr).
  - destruct Hrm as [Hrm|Hrm]; rewrite Hid in Hrm; [discriminate|].
    injection Hrm as ->. now apply (Hno r Hr).
Qed.

(** Where every record refers to stored entities, an unknown identifier is
    an unlinked one. *)
Lemma unknown_is_unlinked (db : InMemory.Db) (filterDto : EventRoomFilterDTO.t) :
  ReferentialIntegrity db -> NamesUnknownEntity db filterDto ->
  NamesUnlinkedEntity db filterDto.
Proof.
  intros Hri [[id [Hid Hno]]|[id [Hid Hno]]]; [left|right]; exists id; (split; [assumption|]);
    intros r Hr Heq; destruct (Hri r Hr) as [Hev Hroom]; subst id; contradiction.
Qed.

Lemma list_of_nothing (indeterminate : double -> Z) (db : InMemory.Db)
      (filterDto : EventRoomFilterDTO.t) :
  filter (FilterPredicate filterDto) (InMemory.Query db) = [] ->
  let o := run InMemory.Repositories
               (EventRoomUseCase.GetFilteredEventRoomsAsync indeterminate filterDto) db in
  exists page, result o = Ok page
               /\ PaginatedResultDTO.TotalCount page = 0
               /\ PaginatedResultDTO.Items page = []
               /\ final o = db.
Proof.
  intros Hnone o. subst o. rewrite list_on_store. cbv zeta.
  eexists. split; [reflexivity|].
  cbn [PaginatedResultDTO.TotalCount PaginatedResultDTO.Items final].
  unfold InMemory.GetCount, InMemory.GetAllAsync. rewrite Hnone.
  split; [reflexivity|]. split; [|reflexivity].
  unfold InMemory.OrderBy; simpl InMemory.sort. now rewrite skipn_nil, firstn_nil.
Qed.

(** C8.  [GetFilteredEventRoomsAsync] never throws and never looks an event
    or a room up, whatever the gateway answers.  On the in-memory gateway a
    filter naming an event or a room that no association record refers to
    yields TotalCount 0 and no item, the store unchanged; in particular so
    does a filter naming an event or a room that is not stored, in a store
    whose records refer to stored events and rooms. *)
Theorem list_accepts_unknown_ids (indeterminate : double -> Z)
        (filterDto : EventRoomFilterDTO.t) :
  (forall (S : Type) (h : Handler S) (s : S),
      let o := run h (EventRoomUseCase.GetFilteredEventRoomsAsync indeterminate filterDto) s in
      (exists page, result o = Ok page)
      /\ calls o = [Invoke (EventRooms_GetCount (FilterPredicate filterDto));
                    Invoke (PageQuery filterDto)])
  /\ (forall db : InMemory.Db,
      NamesUnlinkedEntity db filterDto
      \/ (ReferentialIntegrity db /\ NamesUnknownEntity db filterDto) ->
      let o := run InMemory.Repositories
                   (EventRoomUseCase.GetFilteredEventRoomsAsync indeterminate filterDto) db in
      exists page, result o = Ok page
                   /\ PaginatedResultDTO.TotalCount page = 0
                   /\ PaginatedResultDTO.Items page = []
                   /\ final o = db).
Proof.
  split.
  - intros S h s o. subst o.
    pose proof (list_on_any indeterminate S h s filterDto) as H. cbv zeta in H.
    rewrite H. cbn [result calls]. split; [eexists; reflexivity|reflexivity].
  - intros db Hcase. apply list_of_nothing. apply no_match_for_unlinked_id.
    destruct Hcase as [Hunlinked|[Hri Hunknown]]; [assumption|].
    now apply unknown_is_unlinked.
Qed.

(** C9.  [GetFilteredEventRoomsAsync] validates neither pagination
    parameter.  For every filter and every gateway it passes PageNumber and
    PageSize to the page query as they are, however small, and goes on to
    return a page that repeats them; with PageSize 0 the quotient
    [totalCount / (double)0] it then takes is not a finite number, and
    TotalPages is whatever the conversion of that value to [int] gives. *)
Theorem list_does_not_validate_paging (indeterminate : double -> Z) (S : Type)
        (h : Handler S) (s : S) (filterDto : EventRoomFilterDTO.t) :
  let o := run h (EventRoomUseCase.GetFilteredEventRoomsAsync indeterminate filterDto) s in
  calls o
  = [Invoke (EventRooms_GetCount (FilterPredicate filterDto));
     Invoke (EventRooms_GetAllAsync (FilterPredicate filterDto) false
               (EventRoomFilterDTO.PageNumber filterDto)
               (EventRoomFilterDTO.PageSize filterDto)
               [NavEvent; NavRoom] EventRoom.Id false)]
  /\ exists page,
      result o = Ok page
      /\ PaginatedResultDTO.PageIndex page = EventRoomFilterDTO.PageNumber filterDto
      /\ PaginatedResultDTO.PageSize page = EventRoomFilterDTO.PageSize filterDto
      /\ PaginatedResultDTO.TotalCount page
         = fst (h _ (EventRooms_GetCount (FilterPredicate filterDto)) s)
      /\ (EventRoomFilterDTO.PageSize filterDto = 0 ->
          let quotient := div_double (PaginatedResultDTO.TotalCount page) 0 in
          is_finite quotient = false
          /\ PaginatedResultDTO.TotalPages page = indeterminate quotient).
Proof.
  intros o. subst o.
  pose proof (list_on_any indeterminate S h s filterDto) as H. cbv zeta in H.
  rewrite H. cbn [result calls]. split; [reflexivity|].
  eexists. split; [reflexivity|].
  cbn [PaginatedResultDTO.PageIndex PaginatedResultDTO.PageSize
       PaginatedResultDTO.TotalCount PaginatedResultDTO.TotalPages].
  repeat (split; [reflexivity|]).
  intros ->. cbv zeta. unfold div_double. simpl (0 ?= 0).
  destruct (fst _ ?= 0); split; reflexivity.
Qed.

(** C10.  Under any gateway, once the three checks of
    [CreateEventRoomAsync] have passed, the calls are: add the new entity,
    save, look the composite key up again; the value returned is the mapping
    of what that last lookup answered, in the state after the write; the
    entity handed to [AddAsync] is not what is returned.  When the lookup
    answers null the use case returns the mapping of null, a null record, and
    throws nothing. *)
Theorem create_returns_second_lookup (S : Type) (h : Handler S) (s : S)
        (dto : CreateEventRoomDTO.t) :
  let eventId := CreateEventRoomDTO.EventId dto in
  let roomId := CreateEventRoomDTO.RoomId dto in
  let foundEvent := h _ (Events_FindOneAsync (EventById eventId)) s in
  let foundRoom := h _ (Rooms_FindOneAsync (RoomById roomId)) (snd foundEvent) in
  let duplicate := h _ (EventRooms_FindOneAsync (ByKeys eventId roomId)) (snd foundRoom) in
  let added := h _ (EventRooms_AddAsync (NewEventRoom dto)) (snd duplicate) in
  let saved := h _ UnitOfWork_SaveChangesAsync (snd added) in
  let created := h _ (EventRooms_FindOneAsync (ByKeys eventId roomId)) (snd saved) in
  fst foundEvent <> None -> fst foundRoom <> None -> fst duplicate = None ->
  let o := run h (EventRoomUseCase.CreateEventRoomAsync dto) s in
  result o = Ok (Mapper.Map (fst created))
  /\ final o = snd created
  /\ calls o
     = [Invoke (Events_FindOneAsync (EventById eventId));
        Invoke (Rooms_FindOneAsync (RoomById roomId));
        Invoke (EventRooms_FindOneAsync (ByKeys eventId roomId));
        Invoke (EventRooms_AddAsync (NewEventRoom dto));
        Invoke UnitOfWork_SaveChangesAsync;
        Invoke (EventRooms_FindOneAsync (ByKeys eventId roomId))]
  /\ (fst created = None -> result o = Ok None).
Proof.
  intros eventId roomId foundEvent foundRoom duplicate added saved created Hev Hrm Hdup o.
  assert (Hrun : o = mkOutcome (Ok (Mapper.Map (fst created))) (snd created)
                       [Invoke (Events_FindOneAsync (EventById eventId));
                        Invoke (Rooms_FindOneAsync (RoomById roomId));
                        Invoke (EventRooms_FindOneAsync (ByKeys eventId roomId));
                        Invoke (EventRooms_AddAsync (NewEventRoom dto));
                        Invoke UnitOfWork_SaveChangesAsync;
                        Invoke (EventRooms_FindOneAsync (ByKeys eventId roomId))]).
  { subst o created saved added duplicate foundRoom foundEvent.
    unfold EventRoomUseCase.CreateEventRoomAsync. fold eventId roomId.
    change (fun e => (Event.Id e =? eventId)%N) with (EventById eventId) in *.
    change (fun r => (Room.Id r =? roomId)%N) with (RoomById roomId) in *.
    change (fun er => (EventRoom.EventId er =? eventId)%N && (EventRoom.RoomId er =? roomId)%N)
      with (ByKeys eventId roomId) in *.
    change (EventRoom.mk Guid_Empty eventId roomId None None) with (NewEventRoom dto).
    cbn [run].
    destruct (h _ (Events_FindOneAsync (EventById eventId)) s) as [ev s1]; cbn [fst snd] in *.
    destruct ev as [ev|]; [|congruence]. cbn [is_null run].
    destruct (h _ (Rooms_FindOneAsync (RoomById roomId)) s1) as [rm s2]; cbn [fst snd] in *.
    destruct rm as [rm|]; [|congruence]. cbn [is_null run].
    destruct (h _ (EventRooms_FindOneAsync (ByKeys eventId roomId)) s2) as [dup s3];
      cbn [fst snd] in *.
    subst dup. cbn [is_null negb run].
    destruct (h _ (EventRooms_AddAsync (NewEventRoom dto)) s3) as [u1 s4]; cbn [fst snd run].
    destruct (h _ UnitOfWork_SaveChangesAsync s4) as [u2 s5]; cbn [fst snd run].
    destruct (h _ (EventRooms_FindOneAsync (ByKeys eventId roomId)) s5) as [cr s6].
    reflexivity. }
  rewrite Hrun. cbn [result final calls]. repeat split. now intros ->.
Qed.

(** The test [CreateEventRoomAsync_ValidDto_ReturnsEventRoomDTO]: the result
    is not null and carries the two identifiers. *)
Example CreateEventRoomAsync_ValidDto_ReturnsEventRoomDTO :
  exists dto,
    result (run Mock.Repositories (EventRoomUseCase.CreateEventRoomAsync Sample.createDto)
                Mock.SetupSequence) = Ok (Some dto)
    /\ EventRoomDTO.EventId dto = Sample.eventId
    /\ EventRoomDTO.RoomId dto = Sample.roomId.
Proof. eexists. repeat split. Qed.

(** ** The theorems at concrete inputs *)

(** The four outcomes of a creation on the sample stores. *)
Lemma create_checks_in_order_witness :
  let run_on := run InMemory.Repositories
                    (EventRoomUseCase.CreateEventRoomAsync Sample.createDto) in
  result (run_on Sample.unlinked)
  = Ok (Some (EventRoomDTO.mk Sample.generatedId Sample.eventId Sample.roomId None None))
  /\ final (run_on Sample.unlinked) = Sample.linked
  /\ result (run_on Sample.linked)
     = Thrown (ConflictException "EventRoom with same Event and Room already exists.")
  /\ result (run_on Sample.vacant) = Thrown (NotFoundException "Event").
Proof.
  cbv zeta.
  assert (He : forall rows n p, EventExists (InMemory.mkDb [Sample.TechConference]
                                  [Sample.Room101] rows n p) Sample.eventId).
  { intros. exists Sample.TechConference. split; [now left|reflexivity]. }
  assert (Hr : forall rows n p, RoomExists (InMemory.mkDb [Sample.TechConference]
                                  [Sample.Room101] rows n p) Sample.roomId).
  { intros. exists Sample.Room101. split; [now left|reflexivity]. }
  destruct (create_checks_in_order Sample.unlinked Sample.createDto) as (_ & _ & _ & Hok).
  destruct (create_checks_in_order Sample.linked Sample.createDto) as (_ & _ & Hdup & _).
  destruct (create_checks_in_order Sample.vacant Sample.createDto) as (Hmiss & _).
  destruct Hok as (Hres & Hfin & _);
    [apply He|apply Hr|intros (r & [] & _)|reflexivity|].
  destruct Hdup as (Hconflict & _);
    [apply He|apply Hr| |].
  { exists (Row.mk Sample.generatedId Sample.eventId Sample.roomId).
    split; [now left|split; reflexivity]. }
  destruct Hmiss as (Hnotfound & _); [intros (e & [] & _)|].
  repeat split; assumption.
Defined.

(** A creation refused for a missing event, and one refused as a duplicate. *)
Lemma create_failure_writes_nothing_witness :
  final (run InMemory.Repositories
             (EventRoomUseCase.CreateEventRoomAsync Sample.createDto) Sample.vacant)
  = Sample.vacant
  /\ forallb (fun i => negb (mutating i))
             (calls (run InMemory.Repositories
                         (EventRoomUseCase.CreateEventRoomAsync Sample.createDto)
                         Sample.linked)) = true.
Proof.
  destruct (create_failure_writes_nothing Sample.createDto) as [Hany Hstore].
  split.
  - apply (Hstore Sample.vacant (NotFoundException "Event")). reflexivity.
  - apply (Hany _ InMemory.Repositories Sample.linked
                (ConflictException "EventRoom with same Event and Room already exists.")).
    reflexivity.
Defined.

(** Create twice, list, delete, get, create again. *)
Lemma composite_key_unique_witness :
  NoDup (map Key
             (InMemory.EventRooms
                (replay Sample.indeterminate
                        [Create Sample.createDto; Create Sample.createDto;
                         GetAll EventRoomFilterDTO.default;
                         Delete Sample.eventId Sample.roomId;
                         GetByIds Sample.eventId Sample.roomId;
                         Create Sample.createDto]
                        Sample.unlinked))).
Proof.
  apply (composite_key_unique Sample.indeterminate Sample.unlinked); reflexivity.
Defined.

(** Delete the stored association, then delete it again. *)
Lemma delete_not_found_exactly_when_absent_witness :
  let delete := EventRoomUseCase.DeleteEventRoomAsync Sample.eventId Sample.roomId in
  result (run InMemory.Repositories delete Sample.linked) = Ok tt
  /\ InMemory.EventRooms (final (run InMemory.Repositories delete Sample.linked)) = []
  /\ result (run InMemory.Repositories delete
                 (final (run InMemory.Repositories delete Sample.linked)))
     = Thrown (NotFoundException (DeleteNotFoundMessage Sample.eventId Sample.roomId)).
Proof.
  cbv zeta.
  destruct (delete_not_found_exactly_when_absent Sample.linked Sample.eventId Sample.roomId)
    as (_ & _ & Hpresent); [reflexivity|].
  destruct Hpresent as (Hok & Hfinal & _ & Hagain).
  { exists (Row.mk Sample.generatedId Sample.eventId Sample.roomId).
    split; [now left|split; reflexivity]. }
  split; [exact Hok|]. split; [|exact Hagain].
  rewrite Hfinal. reflexivity.
Defined.

(** Listing by event on the store with one association. *)
Lemma list_matches_filter_witness :
  exists page,
    result (run InMemory.Repositories
                (EventRoomUseCase.GetFilteredEventRoomsAsync
                   Sample.indeterminate (Sample.byEvent 1 10)) Sample.linked) = Ok page
    /\ PaginatedResultDTO.TotalCount page = 1
    /\ In (ListedItem Sample.linked (Row.mk Sample.generatedId Sample.eventId Sample.roomId))
          (PaginatedResultDTO.Items page).
Proof.
  eexists. split; [reflexivity|].
  destruct (list_matches_filter Sample.indeterminate (Sample.byEvent 1 10))
    as (_ & _ & _ & Hstore).
  destruct (Hstore Sample.linked _ eq_refl) as (Hcount & _ & Hall).
  split; [exact Hcount|].
  apply Hall; [reflexivity|vm_compute; discriminate|now left|reflexivity].
Defined.

(** The scenario of the specification: page 1 of size 10 over 25 matching
    records. *)
Lemma list_pagination_witness :
  exists page,
    result (run InMemory.Repositories
                (EventRoomUseCase.GetFilteredEventRoomsAsync
                   Sample.indeterminate (Sample.byEvent 1 10)) Sample.crowded) = Ok page
    /\ PaginatedResultDTO.TotalCount page = 25
    /\ PaginatedResultDTO.TotalPages page = 3
    /\ List.length (PaginatedResultDTO.Items page) = 10%nat
    /\ PaginatedResultDTO.HasPreviousPage page = false
    /\ PaginatedResultDTO.HasNextPage page = true.
Proof.
  destruct (list_pagination Sample.indeterminate Sample.crowded (Sample.byEvent 1 10))
    as (page & Hrun & Hcount & Hlow & Hhigh & _ & Hitems & _ & _ & _ & Hprev & Hnext & _);
    [vm_compute; discriminate|vm_compute; discriminate|vm_compute; discriminate|].
  exists page. rewrite Hrun. split; [reflexivity|].
  assert (Hc : PaginatedResultDTO.TotalCount page = 25) by exact Hcount.
  assert (Hp : PaginatedResultDTO.TotalPages page = 3).
  { rewrite Hc in Hlow, Hhigh. cbn [Sample.byEvent EventRoomFilterDTO.PageSize] in Hlow, Hhigh.
    lia. }
  split; [exact Hc|]. split; [exact Hp|]. split; [now rewrite Hitems|]. split.
  - destruct (PaginatedResultDTO.HasPreviousPage page); [|reflexivity].
    exfalso. assert (Hgt : 1 < 1) by now apply Hprev. lia.
  - apply Hnext. rewrite Hp. reflexivity.
Defined.

(** Listing by an event identifier that belongs to no event. *)
Lemma list_accepts_unknown_ids_witness :
  exists page,
    result (run InMemory.Repositories
                (EventRoomUseCase.GetFilteredEventRoomsAsync
                   Sample.indeterminate
                   (EventRoomFilterDTO.mk (Some Sample.roomId) None 1 10))
                Sample.linked) = Ok page
    /\ PaginatedResultDTO.TotalCount page = 0
    /\ PaginatedResultDTO.Items page = [].
Proof.
  destruct (list_accepts_unknown_ids Sample.indeterminate
              (EventRoomFilterDTO.mk (Some Sample.roomId) None 1 10)) as (_ & Hstore).
  destruct (Hstore Sample.linked) as (page & Hres & Hcount & Hitems & _).
  - right. split.
    + intros r [<-|[]]. split.
      * exists Sample.TechConference. split; [now left|reflexivity].
      * exists Sample.Room101. split; [now left|reflexivity].
    + left. exists Sample.roomId. split; [reflexivity|].
      intros (e & [<-|[]] & Hid). vm_compute in Hid. discriminate.
  - exists page. repeat split; assumption.
Defined.

(** Page number -3 and page size 0 are accepted. *)
Lemma list_does_not_validate_paging_witness :
  exists page,
    result (run InMemory.Repositories
                (EventRoomUseCase.GetFilteredEventRoomsAsync
                   Sample.indeterminate (EventRoomFilterDTO.mk None None (-3) 0))
                Sample.linked) = Ok page
    /\ PaginatedResultDTO.PageIndex page = -3
    /\ PaginatedResultDTO.PageSize page = 0
    /\ PaginatedResultDTO.TotalCount page = 1
    /\ div_double (PaginatedResultDTO.TotalCount page) 0 = PositiveInfinity
    /\ PaginatedResultDTO.TotalPages page = Int32_MinValue.
Proof.
  destruct (list_does_not_validate_paging Sample.indeterminate _ InMemory.Repositories
              Sample.linked (EventRoomFilterDTO.mk None None (-3) 0))
    as (_ & page & Hres & Hindex & Hsize & Hcount & Hzero).
  destruct (Hzero eq_refl) as (_ & Hpages).
  assert (Hc : PaginatedResultDTO.TotalCount page = 1) by exact Hcount.
  exists page. repeat split; try assumption.
  now rewrite Hc.
Defined.

(** Two mocked runs: the re-read answers null, and the re-read answers the
    arranged entity, whose identifier the entity handed to [AddAsync] does
    not have. *)
Lemma create_returns_second_lookup_witness :
  result (run Mock.Repositories (EventRoomUseCase.CreateEventRoomAsync Sample.createDto) [])
  = Ok None
  /\ result (run Mock.Repositories (EventRoomUseCase.CreateEventRoomAsync Sample.createDto)
                 Mock.SetupSequence)
     = Ok (Some (Mapper.MapEventRoom Mock.eventRoomEntity))
  /\ EventRoom.Id (NewEventRoom Sample.createDto) = Guid_Empty
  /\ EventRoom.Id Mock.eventRoomEntity = Sample.generatedId.
Proof.
  destruct (create_returns_second_lookup _ Mock.Repositories [] Sample.createDto)
    as (_ & _ & _ & Hnull); [discriminate|discriminate|reflexivity|].
  destruct (create_returns_second_lookup _ Mock.Repositories Mock.SetupSequence
                                         Sample.createDto)
    as (Hreread & _); [discriminate|discriminate|reflexivity|].
  split; [apply Hnull; reflexivity|]. split; [exact Hreread|]. split; reflexivity.
Defined.

(** ** Further properties: how the operations compose *)

Lemma create_fresh_on_store (db : InMemory.Db) (dto : CreateEventRoomDTO.t) :
  Quiescent db ->
  EventExists db (CreateEventRoomDTO.EventId dto) ->
  RoomExists db (CreateEventRoomDTO.RoomId dto) ->
  ~ Linked db (CreateEventRoomDTO.EventId dto) (CreateEventRoomDTO.RoomId dto) ->
  let o := run InMemory.Repositories (EventRoomUseCase.CreateEventRoomAsync dto) db in
  result o
  = Ok (Some (EventRoomDTO.mk (InMemory.NextId db) (CreateEventRoomDTO.EventId dto)
                              (CreateEventRoomDTO.RoomId dto) None None))
  /\ final o
     = InMemory.mkDb (InMemory.Events db) (InMemory.Rooms db)
         (InMemory.EventRooms db
            ++ [Row.mk (InMemory.NextId db) (CreateEventRoomDTO.EventId dto)
                       (CreateEventRoomDTO.RoomId dto)])
         (N.succ (InMemory.NextId db)) [].
Proof.
  intros Hq He Hr Hl o. subst o. rewrite create_on_store.
  apply event_lookup in He. apply room_lookup in Hr. rewrite He, Hr.
  destruct (is_null (InMemory.FindOneAsync _ (InMemory.Query db))) eqn:Hnull.
  - cbn [negb result final]. rewrite (reread_after_add db dto Hq Hnull).
    now rewrite (save_after_add _ _ Hq).
  - exfalso. apply Hl. now apply link_lookup.
Qed.

Lemma create_duplicate_on_store (db : InMemory.Db) (dto : CreateEventRoomDTO.t) :
  EventExists db (CreateEventRoomDTO.EventId dto) ->
  RoomExists db (CreateEventRoomDTO.RoomId dto) ->
  Linked db (CreateEventRoomDTO.EventId dto) (CreateEventRoomDTO.RoomId dto) ->
  let o := run InMemory.Repositories (EventRoomUseCase.CreateEventRoomAsync dto) db in
  result o = Thrown (ConflictException "EventRoom with same Event and Room already exists.")
  /\ final o = db.
Proof.
  intros He Hr Hl o. subst o. rewrite create_on_store.
  apply event_lookup in He. apply room_lookup in Hr. apply link_lookup in Hl.
  rewrite He, Hr, Hl. split; reflexivity.
Qed.

Lemma linked_dec (db : InMemory.Db) (eventId roomId : Guid) :
  Linked db eventId roomId \/ ~ Linked db eventId roomId.
Proof.
  destruct (is_null (InMemory.FindOneAsync (ByKeys eventId roomId) (InMemory.Query db)))
    eqn:Hnull.
  - right. intros Hl. apply link_lookup in Hl. congruence.
  - left. now apply link_lookup.
Qed.

Lemma linked_after_add (db : InMemory.Db) (id eventId roomId : Guid) (next : Guid) :
  Linked (InMemory.mkDb (InMemory.Events db) (InMemory.Rooms db)
                        (InMemory.EventRooms db ++ [Row.mk id eventId roomId]) next [])
         eventId roomId.
Proof.
  exists (Row.mk id eventId roomId). cbn [InMemory.EventRooms].
  split; [apply in_or_app; right; now left|split; reflexivity].
Qed.

Lemma filter_all {A : Type} (p : A -> bool) (l : list A) :
  (forall x, In x l -> p x = true) -> filter p l = l.
Proof.
  induction l as [|a l IH]; simpl; intros H; [reflexivity|].
  rewrite (H a) by now left. f_equal. apply IH. intros x Hx. apply H. now right.
Qed.

Lemma unlinked_rows (db : InMemory.Db) (eventId roomId : Guid) :
  ~ Linked db eventId roomId ->
  forall r, In r (InMemory.EventRooms db) ->
            ByKeys eventId roomId (InMemory.Materialize r) = false.
Proof.
  intros Hl r Hr. destruct (ByKeys eventId roomId (InMemory.Materialize r)) eqn:Hk;
    [|reflexivity].
  exfalso. apply Hl. exists r. apply ByKeys_true in Hk. now split.
Qed.

Lemma nothing_left_after_delete (rows : list Row.t) (eventId roomId : Guid) :
  InMemory.FindOneAsync (ByKeys eventId roomId)
    (map InMemory.Materialize
         (filter (fun r => negb (ByKeys eventId roomId (InMemory.Materialize r))) rows))
  = None.
Proof.
  unfold InMemory.FindOneAsync.
  destruct (find _ _) as [er|] eqn:Hf; [|reflexivity].
  apply find_some in Hf as [Hin Hk]. apply in_map_iff in Hin as [r [<- Hr]].
  apply filter_In in Hr as [_ Hr]. now rewrite Hk in Hr.
Qed.

(** X1.  A creation that goes through can be read back: on a store without
    unsaved changes, for an existing event and room not yet associated,
    [GetEventRoomAsync] on the store after [CreateEventRoomAsync] returns the
    very record the creation returned. *)
Theorem create_then_get (db : InMemory.Db) (dto : CreateEventRoomDTO.t) :
  let eventId := CreateEventRoomDTO.EventId dto in
  let roomId := CreateEventRoomDTO.RoomId dto in
  Quiescent db -> EventExists db eventId -> RoomExists db roomId ->
  ~ Linked db eventId roomId ->
  let created := run InMemory.Repositories (EventRoomUseCase.CreateEventRoomAsync dto) db in
  exists record,
    result created = Ok (Some record)
    /\ EventRoomDTO.EventId record = eventId
    /\ EventRoomDTO.RoomId record = roomId
    /\ result (run InMemory.Repositories
                   (EventRoomUseCase.GetEventRoomAsync eventId roomId) (final created))
       = Ok record.
Proof.
  intros eventId roomId Hq He Hr Hl created.
  destruct (create_fresh_on_store db dto Hq He Hr Hl) as [Hres Hfin].
  fold created in Hres, Hfin. eexists. split; [exact Hres|].
  split; [reflexivity|]. split; [reflexivity|].
  rewrite get_on_store; cbn [result]. rewrite Hfin.
  unfold InMemory.FindOneAsync, InMemory.Query; cbn [InMemory.EventRooms].
  rewrite map_app; simpl map.
  rewrite (find_appended (ByKeys eventId roomId)).
  - reflexivity.
  - apply find_is_null. intros x Hx. apply in_map_iff in Hx as [r [<- Hin]].
    now apply (unlinked_rows db).
  - apply ByKeys_true. split; reflexivity.
Qed.

(** X2.  After [DeleteEventRoomAsync], whether it succeeded or threw,
    [GetEventRoomAsync] on the same keys throws [NotFoundException
    "EventRoom"]. *)
Theorem delete_then_get_not_found (db : InMemory.Db) (eventId roomId : Guid) :
  Quiescent db ->
  result (run InMemory.Repositories (EventRoomUseCase.GetEventRoomAsync eventId roomId)
              (final (run InMemory.Repositories
                          (EventRoomUseCase.DeleteEventRoomAsync eventId roomId) db)))
  = Thrown (NotFoundException "EventRoom").
Proof.
  intros Hq. rewrite delete_on_store.
  destruct (is_null (InMemory.FindOneAsync (ByKeys eventId roomId) (InMemory.Query db)))
    eqn:Hnull; cbn [final]; rewrite get_on_store; cbn [result].
  - destruct (InMemory.FindOneAsync _ _); [discriminate|reflexivity].
  - rewrite (save_after_delete _ _ Hq). unfold InMemory.Query; cbn [InMemory.EventRooms].
    now rewrite nothing_left_after_delete.
Qed.

(** X3.  Creating the same pair again right after a creation always throws
    [ConflictException] and changes nothing, whether the first creation
    stored the record or found it already there. *)
Theorem create_twice_conflicts (db : InMemory.Db) (dto : CreateEventRoomDTO.t) :
  Quiescent db ->
  EventExists db (CreateEventRoomDTO.EventId dto) ->
  RoomExists db (CreateEventRoomDTO.RoomId dto) ->
  let first := run InMemory.Repositories (EventRoomUseCase.CreateEventRoomAsync dto) db in
  let second :=
    run InMemory.Repositories (EventRoomUseCase.CreateEventRoomAsync dto) (final first) in
  result second
  = Thrown (ConflictException "EventRoom with same Event and Room already exists.")
  /\ final second = final first.
Proof.
  intros Hq He Hr first second.
  destruct (linked_dec db (CreateEventRoomDTO.EventId dto) (CreateEventRoomDTO.RoomId dto))
    as [Hl|Hl].
  - destruct (create_duplicate_on_store db dto He Hr Hl) as [_ Hfin].
    fold first in Hfin. subst second. rewrite Hfin.
    now apply create_duplicate_on_store.
  - destruct (create_fresh_on_store db dto Hq He Hr Hl) as [_ Hfin].
    fold first in Hfin. subst second. rewrite Hfin.
    apply create_duplicate_on_store; [exact He|exact Hr|apply linked_after_add].
Qed.

(** X4.  Creating an association and deleting it again restores the
    association records (and the events and rooms) as they were, and the
    pair can then be created anew, under the next generated identifier. *)
Theorem create_delete_restores (db : InMemory.Db) (dto : CreateEventRoomDTO.t) :
  let eventId := CreateEventRoomDTO.EventId dto in
  let roomId := CreateEventRoomDTO.RoomId dto in
  Quiescent db -> EventExists db eventId -> RoomExists db roomId ->
  ~ Linked db eventId roomId ->
  let created := run InMemory.Repositories (EventRoomUseCase.CreateEventRoomAsync dto) db in
  let deleted := run InMemory.Repositories
                     (EventRoomUseCase.DeleteEventRoomAsync eventId roomId)
                     (final created) in
  let again := run InMemory.Repositories (EventRoomUseCase.CreateEventRoomAsync dto)
                   (final deleted) in
  result deleted = Ok tt
  /\ InMemory.EventRooms (final deleted) = InMemory.EventRooms db
  /\ InMemory.Events (final deleted) = InMemory.Events db
  /\ InMemory.Rooms (final deleted) = InMemory.Rooms db
  /\ result again
     = Ok (Some (EventRoomDTO.mk (N.succ (InMemory.NextId db)) eventId roomId None None)).
Proof.
  intros eventId roomId Hq He Hr Hl created deleted again.
  destruct (create_fresh_on_store db dto Hq He Hr Hl) as [_ Hfin].
  fold created eventId roomId in Hfin.
  assert (Hdel : deleted
                 = mkOutcome (Ok tt)
                     (InMemory.mkDb (InMemory.Events db) (InMemory.Rooms db)
                                    (InMemory.EventRooms db) (N.succ (InMemory.NextId db)) [])
                     [Invoke (EventRooms_FindOneAsync (ByKeys eventId roomId));
                      Invoke (EventRooms_DeleteAsync (ByKeys eventId roomId));
                      Invoke UnitOfWork_SaveChangesAsync]).
  { subst deleted. rewrite Hfin, delete_on_store.
    assert (Hlk : is_null (InMemory.FindOneAsync (ByKeys eventId roomId)
                     (InMemory.Query
                        (InMemory.mkDb (InMemory.Events db) (InMemory.Rooms db)
                           (InMemory.EventRooms db
                              ++ [Row.mk (InMemory.NextId db) eventId roomId])
                           (N.succ (InMemory.NextId db)) []))) = false).
    { apply link_lookup. apply linked_after_add. }
    rewrite Hlk. rewrite save_after_delete by reflexivity.
    cbn [InMemory.Events InMemory.Rooms InMemory.EventRooms InMemory.NextId].
    rewrite filter_app. simpl filter at 2.
    assert (Hnew : ByKeys eventId roomId
                     (InMemory.Materialize (Row.mk (InMemory.NextId db) eventId roomId))
                   = true) by (apply ByKeys_true; split; reflexivity).
    rewrite Hnew. cbn [negb]. rewrite app_nil_r.
    rewrite filter_all; [reflexivity|].
    intros r Hr0. now rewrite (unlinked_rows db eventId roomId Hl r Hr0). }
  subst again. rewrite Hdel. cbn [result final InMemory.EventRooms InMemory.Events InMemory.Rooms].
  repeat (split; [reflexivity|]).
  apply (create_fresh_on_store
           (InMemory.mkDb (InMemory.Events db) (InMemory.Rooms db) (InMemory.EventRooms db)
                          (N.succ (InMemory.NextId db)) []) dto);
    [reflexivity|exact He|exact Hr|exact Hl].
Qed.

(** ** Further properties: what the requests preserve *)





Lemma exists_in_same_entities (db db' : InMemory.Db) :
  InMemory.Events db' = InMemory.Events db -> InMemory.Rooms db' = InMemory.Rooms db ->
  forall r, EventExists db (Row.EventId r) /\ RoomExists db (Row.RoomId r) ->
            EventExists db' (Row.EventId r) /\ RoomExists db' (Row.RoomId r).
Proof.
  unfold EventExists, RoomExists. intros -> ->. auto.
Qed.

Lemma serve_keeps_integrity (indeterminate : double -> Z) (req : Request) (db : InMemory.Db) :
  Quiescent db -> ReferentialIntegrity db ->
  Quiescent (serve indeterminate req db) /\ ReferentialIntegrity (serve indeterminate req db).
Proof.
  intros Hq Hri. destruct req as [dto|filterDto|eventId roomId|eventId roomId]; unfold serve.
  - rewrite create_on_store.
    destruct (is_null (InMemory.FindOneAsync (EventById (CreateEventRoomDTO.EventId dto))
                                             (InMemory.Events db))) eqn:He; [now split|].
    destruct (is_null (InMemory.FindOneAsync (RoomById (CreateEventRoomDTO.RoomId dto))
                                             (InMemory.Rooms db))) eqn:Hr; [now split|].
    destruct (is_null (InMemory.FindOneAsync
                         (ByKeys (CreateEventRoomDTO.EventId dto)
                                 (CreateEventRoomDTO.RoomId dto)) (InMemory.Query db)));
      cbn [negb]; cbv iota; [|now split].
    cbn [final]. rewrite (save_after_add _ _ Hq). split; [reflexivity|].
    apply event_lookup in He. apply room_lookup in Hr.
    intros r Hin. cbn [InMemory.EventRooms] in Hin.
    apply (exists_in_same_entities db); [reflexivity|reflexivity|].
    apply in_app_or in Hin as [Hin|[<-|[]]]; [now apply Hri|].
    split; assumption.
  - rewrite list_on_store. now split.
  - rewrite get_on_store. now split.
  - rewrite delete_on_store. destruct (is_null _); [now split|].
    cbn [final]. rewrite (save_after_delete _ _ Hq). split; [reflexivity|].
    intros r Hin. cbn [InMemory.EventRooms] in Hin. apply filter_In in Hin as [Hin _].
    apply (exists_in_same_entities db); [reflexivity|reflexivity|]. now apply Hri.
Qed.

(** X6.  The existence checks of the creation keep the association records
    referring to stored events and rooms: from a store where they do and
    nothing is unsaved, after any sequence of requests every record still
    refers to a stored event and a stored room, and nothing is left unsaved. *)
Theorem requests_keep_referential_integrity (indeterminate : double -> Z)
        (reqs : list Request) :
  forall db,
    Quiescent db -> ReferentialIntegrity db ->
    ReferentialIntegrity (replay indeterminate reqs db)
    /\ Quiescent (replay indeterminate reqs db).
Proof.
  induction reqs as [|req reqs IH]; intros db Hq Hri; [now split|].
  unfold replay; simpl. fold (replay indeterminate reqs (serve indeterminate req db)).
  destruct (serve_keeps_integrity indeterminate req db Hq Hri) as [Hq' Hri'].
  now apply IH.
Qed.

(** X7.  A creation that returns has done what was asked: the event and the
    room exist, the pair was not associated before, the value returned is not
    null and carries the two identifiers, and exactly one record with the
    pair is stored afterwards. *)
Theorem create_success_means_one_record (db : InMemory.Db) (dto : CreateEventRoomDTO.t)
        (returned : option EventRoomDTO.t) :
  let eventId := CreateEventRoomDTO.EventId dto in
  let roomId := CreateEventRoomDTO.RoomId dto in
  let o := run InMemory.Repositories (EventRoomUseCase.CreateEventRoomAsync dto) db in
  Quiescent db -> result o = Ok returned ->
  EventExists db eventId /\ RoomExists db roomId /\ ~ Linked db eventId roomId
  /\ (exists record, returned = Some record
                     /\ EventRoomDTO.EventId record = eventId
                     /\ EventRoomDTO.RoomId record = roomId)
  /\ List.length (filter (fun r => ByKeys eventId roomId (InMemory.Materialize r))
                         (InMemory.EventRooms (final o))) = 1%nat.
Proof.
  intros eventId roomId o Hq Hres. subst o. rewrite create_on_store in Hres.
  fold eventId roomId in Hres.
  destruct (is_null (InMemory.FindOneAsync (EventById eventId) (InMemory.Events db))) eqn:He;
    [discriminate|].
  destruct (is_null (InMemory.FindOneAsync (RoomById roomId) (InMemory.Rooms db))) eqn:Hr;
    [discriminate|].
  destruct (is_null (InMemory.FindOneAsync (ByKeys eventId roomId) (InMemory.Query db)))
    eqn:Hl; cbn [negb] in Hres; cbv iota in Hres; [|discriminate].
  apply event_lookup in He. apply room_lookup in Hr.
  assert (Hnot : ~ Linked db eventId roomId)
    by (intros Hex; apply link_lookup in Hex; congruence).
  destruct (create_fresh_on_store db dto Hq He Hr Hnot) as [Hok Hfin].
  rewrite create_on_store in Hok. fold eventId roomId in Hok.
  apply event_lookup in He. apply room_lookup in Hr. rewrite He, Hr, Hl in Hok.
  cbn [negb] in Hok. cbv iota in Hok. rewrite Hok in Hres. injection Hres as <-.
  apply event_lookup in He. apply room_lookup in Hr.
  split; [exact He|]. split; [exact Hr|]. split; [exact Hnot|].
  split; [eexists; repeat split|].
  rewrite Hfin. cbn [InMemory.EventRooms]. rewrite filter_app, length_app.
  rewrite (filter_none _ _ (unlinked_rows db eventId roomId Hnot)).
  simpl filter. unfold ByKeys at 1. cbn [InMemory.Materialize EventRoom.EventId EventRoom.RoomId].
  now rewrite !N.eqb_refl.
Qed.

(** ** Further properties: the composite-key members of the repository *)

Lemma find_map {A B : Type} (f : A -> B) (p : B -> bool) (l : list A) :
  find p (map f l) = option_map f (find (fun a => p (f a)) l).
Proof.
  induction l as [|a l IH]; simpl; [reflexivity|].
  destruct (p (f a)); [reflexivity|exact IH].
Qed.

Lemma find_first_with {A : Type} (p : A -> bool) (l : list A) :
  (exists x, In x l /\ p x = true) -> exists y, find p l = Some y /\ In y l /\ p y = true.
Proof.
  intros Hex. destruct (find p l) as [y|] eqn:Hf.
  - exists y. apply find_some in Hf. tauto.
  - destruct Hex as [x [Hx Hp]]. now rewrite (find_none _ _ Hf x Hx) in Hp.
Qed.

(** X8.  [GetByIdsAsync] finds the same record as the base [FindOneAsync]
    by the composite key, with both navigation properties included; it is
    null exactly when no record with the key is stored; and what it returns
    carries the key and, for a stored event (room), that event (room). *)
Theorem GetByIdsAsync_resolves (db : InMemory.Db) (eventId roomId : Guid) :
  InMemory.GetByIdsAsync eventId roomId db
  = option_map (InMemory.Include [NavEvent; NavRoom] db)
               (InMemory.FindOneAsync (ByKeys eventId roomId) (InMemory.Query db))
  /\ (InMemory.GetByIdsAsync eventId roomId db = None <-> ~ Linked db eventId roomId)
  /\ forall er,
      InMemory.GetByIdsAsync eventId roomId db = Some er ->
      EventRoom.EventId er = eventId /\ EventRoom.RoomId er = roomId
      /\ (EventExists db eventId ->
          exists e, EventRoom.Event er = Some e /\ Event.Id e = eventId
                    /\ In e (InMemory.Events db))
      /\ (RoomExists db roomId ->
          exists r, EventRoom.Room er = Some r /\ Room.Id r = roomId
                    /\ In r (InMemory.Rooms db)).
Proof.
  assert (Heq : InMemory.GetByIdsAsync eventId roomId db
                = option_map (InMemory.Include [NavEvent; NavRoom] db)
                    (InMemory.FindOneAsync (ByKeys eventId roomId) (InMemory.Query db))).
  { unfold InMemory.GetByIdsAsync, InMemory.FindOneAsync. now rewrite find_map. }
  split; [exact Heq|]. split.
  - rewrite Heq, <- link_lookup.
    destruct (InMemory.FindOneAsync _ _); simpl; split; congruence.
  - intros er. rewrite Heq.
    destruct (InMemory.FindOneAsync _ _) as [found|] eqn:Hf; [|discriminate].
    simpl. intros [= <-]. apply find_some in Hf as [_ Hk]. apply ByKeys_true in Hk as [He Hr].
    cbn [InMemory.Include EventRoom.EventId EventRoom.RoomId EventRoom.Event EventRoom.Room
         InMemory.includes existsb orb].
    rewrite He, Hr. split; [reflexivity|]. split; [reflexivity|]. split.
    + intros [e [Hin Hid]].
      destruct (find_first_with (EventById eventId) (InMemory.Events db)) as [y [Hy [Hyin Hyp]]].
      { exists e. split; [assumption|now apply EventById_true]. }
      exists y. split; [exact Hy|]. split; [now apply EventById_true|assumption].
    + intros [r [Hin Hid]].
      destruct (find_first_with (RoomById roomId) (InMemory.Rooms db)) as [y [Hy [Hyin Hyp]]].
      { exists r. split; [assumption|now apply RoomById_true]. }
      exists y. split; [exact Hy|]. split; [now apply RoomById_true|assumption].
Qed.

Lemma find_in_filtered {A : Type} (p keep : A -> bool) (l : list A) :
  (forall x, p x = true -> keep x = true) -> find p (filter keep l) = find p l.
Proof.
  intros Himp. induction l as [|a l IH]; simpl; [reflexivity|].
  destruct (keep a) eqn:Hk; simpl.
  - destruct (p a); [reflexivity|exact IH].
  - destruct (p a) eqn:Hp; [|exact IH]. rewrite (Himp a Hp) in Hk. discriminate.
Qed.

(** X9.  [DeleteByIdsAsync] followed by [SaveChangesAsync] removes the
    pair, so that [GetByIdsAsync] no longer finds it, and disturbs no other
    pair: [GetByIdsAsync] of any other key answers as before. *)
Theorem DeleteByIdsAsync_then_GetByIdsAsync (db : InMemory.Db) (eventId roomId : Guid) :
  Quiescent db ->
  let saved := InMemory.SaveChangesAsync (InMemory.DeleteByIdsAsync eventId roomId db) in
  InMemory.GetByIdsAsync eventId roomId saved = None
  /\ forall otherEvent otherRoom,
      (otherEvent, otherRoom) <> (eventId, roomId) ->
      InMemory.GetByIdsAsync otherEvent otherRoom saved
      = InMemory.GetByIdsAsync otherEvent otherRoom db.
Proof.
  intros Hq saved.
  assert (Hsaved : saved
                   = InMemory.mkDb (InMemory.Events db) (InMemory.Rooms db)
                       (filter (fun r => negb (ByKeys eventId roomId (InMemory.Materialize r)))
                               (InMemory.EventRooms db))
                       (InMemory.NextId db) []).
  { subst saved. exact (save_after_delete db (ByKeys eventId roomId) Hq). }
  rewrite Hsaved. unfold InMemory.GetByIdsAsync. split.
  - rewrite find_map. unfold InMemory.Query; cbn [InMemory.EventRooms].
    pose proof (nothing_left_after_delete (InMemory.EventRooms db) eventId roomId) as Hn.
    unfold InMemory.FindOneAsync, ByKeys in Hn. cbn [InMemory.Include EventRoom.EventId
                                                   EventRoom.RoomId].
    unfold ByKeys. now rewrite Hn.
  - intros otherEvent otherRoom Hneq. rewrite !find_map.
    unfold InMemory.Query; cbn [InMemory.EventRooms]. rewrite !find_map.
    rewrite find_in_filtered.
    + destruct (find _ (InMemory.EventRooms db)); reflexivity.
    + intros r Hr. apply negb_true_iff.
      destruct (ByKeys eventId roomId (InMemory.Materialize r)) eqn:Hk; [|reflexivity].
      exfalso. apply Hneq. apply ByKeys_true in Hk as [<- <-].
      cbn [InMemory.Include EventRoom.EventId EventRoom.RoomId InMemory.Materialize] in Hr.
      apply andb_true_iff in Hr as [H1 H2]. apply N.eqb_eq in H1, H2.
      cbn [InMemory.Materialize EventRoom.EventId EventRoom.RoomId]. congruence.
Qed.

(** ** Further properties: the paging flags and the page contents *)


(** X10.  Whatever the gateway, for a page size [n >= 1] and a count [c]
    answered by [GetCount] (a non-negative [int]): HasNextPage is true exactly
    when records remain after the requested page, that is when
    PageNumber * n < c; TotalPages is 0 exactly when c is 0; and
    HasPreviousPage is true exactly when PageNumber > 1, whether or not that
    page holds anything. *)
Theorem paging_flags_meaning (indeterminate : double -> Z) (S : Type) (h : Handler S) (s : S)
        (filterDto : EventRoomFilterDTO.t) :
  let p := EventRoomFilterDTO.PageNumber filterDto in
  let n := EventRoomFilterDTO.PageSize filterDto in
  let c := fst (h _ (EventRooms_GetCount (FilterPredicate filterDto)) s) in
  1 <= n -> 0 <= c <= Int32_MaxValue ->
  exists page,
    result (run h (EventRoomUseCase.GetFilteredEventRoomsAsync indeterminate filterDto) s)
    = Ok page
    /\ PaginatedResultDTO.TotalCount page = c
    /\ (PaginatedResultDTO.HasNextPage page = true <-> p * n < c)
    /\ (PaginatedResultDTO.TotalPages page = 0 <-> c = 0)
    /\ (PaginatedResultDTO.HasPreviousPage page = true <-> 1 < p).
Proof.
  intros p n c Hn Hc.
  pose proof (list_on_any indeterminate S h s filterDto) as H. cbv zeta in H.
  rewrite H. cbn [result]. eexists. split; [reflexivity|].
  cbn [PaginatedResultDTO.TotalCount PaginatedResultDTO.TotalPages
       PaginatedResultDTO.HasNextPage PaginatedResultDTO.HasPreviousPage].
  fold c n p.
  pose proof (total_pages_is_ceiling indeterminate c n Hn Hc) as Hk. cbv zeta in Hk.
  set (k := ToInt32 indeterminate (Math_Ceiling (div_double c n))) in *.
  split; [reflexivity|]. split; [rewrite Z.ltb_lt; split; nia|].
  split; [split; nia|apply Z.ltb_lt].
Qed.


Lemma Include_resolves (db : InMemory.Db) (r : Row.t) :
  EventExists db (Row.EventId r) -> RoomExists db (Row.RoomId r) ->
  exists e rm,
    InMemory.Include [NavEvent; NavRoom] db (InMemory.Materialize r)
    = EventRoom.mk (Row.Id r) (Row.EventId r) (Row.RoomId r) (Some e) (Some rm)
    /\ In e (InMemory.Events db) /\ Event.Id e = Row.EventId r
    /\ In rm (InMemory.Rooms db) /\ Room.Id rm = Row.RoomId r.
Proof.
  intros [e [Hin Hid]] [rm [Hrin Hrid]].
  destruct (find_first_with (EventById (Row.EventId r)) (InMemory.Events db))
    as [e' [He' [Hein Hep]]].
  { exists e. split; [assumption|now apply EventById_true]. }
  destruct (find_first_with (RoomById (Row.RoomId r)) (InMemory.Rooms db))
    as [rm' [Hr' [Hrin' Hrp]]].
  { exists rm. split; [assumption|now apply RoomById_true]. }
  exists e', rm'. unfold InMemory.Include, InMemory.Materialize, EventById, RoomById in *.
  cbn [InMemory.includes existsb orb EventRoom.Id EventRoom.EventId EventRoom.RoomId] in *.
  rewrite He', Hr'. split; [reflexivity|].
  apply N.eqb_eq in Hep, Hrp. tauto.
Qed.

(** X12.  Unlike the single-record read, the listing resolves the related
    entities: in a store whose records refer to stored events and rooms,
    every item of every page carries its event and its room, each with the
    identifier the item names. *)
Theorem listed_items_are_resolved (indeterminate : double -> Z) (db : InMemory.Db)
        (filterDto : EventRoomFilterDTO.t) (page : PaginatedResultDTO.t EventRoomDTO.t) :
  ReferentialIntegrity db ->
  result (run InMemory.Repositories
              (EventRoomUseCase.GetFilteredEventRoomsAsync indeterminate filterDto) db)
  = Ok page ->
  forall item, In item (PaginatedResultDTO.Items page) ->
    exists e rm,
      EventRoomDTO.Event item = Some e /\ EventDTO.Id e = EventRoomDTO.EventId item
      /\ EventRoomDTO.Room item = Some rm /\ RoomDTO.Id rm = EventRoomDTO.RoomId item.
Proof.
  intros Hri. rewrite list_on_store. cbv zeta. cbn [result]. intros [= <-] item.
  cbn [PaginatedResultDTO.Items]. unfold InMemory.GetAllAsync, Mapper.MapList.
  rewrite map_map. intros Hin. apply in_map_iff in Hin as [er [<- Her]].
  apply in_page in Her. apply (Permutation_in _ (OrderBy_perm _ _ _)) in Her.
  apply filter_In in Her as [Her _]. apply in_map_iff in Her as [r [<- Hr]].
  destruct (Hri r Hr) as [He Hrm].
  destruct (Include_resolves db r He Hrm) as [e [rm [Hinc [_ [Hid [_ Hrid]]]]]].
  rewrite Hinc. exists (Mapper.MapEvent e), (Mapper.MapRoom rm).
  cbn. repeat split; assumption.
Qed.

(** X13.  The listing of the use case and [GetEventRoomsPagedAsync] of the
    repository agree: called with the use case's predicate, page, size and
    ordering, the repository method returns the entities the use case maps
    into its items and the total the use case reports. *)
Theorem listing_agrees_with_paged_repository (indeterminate : double -> Z)
        (db : InMemory.Db) (filterDto : EventRoomFilterDTO.t)
        (page : PaginatedResultDTO.t EventRoomDTO.t) :
  result (run InMemory.Repositories
              (EventRoomUseCase.GetFilteredEventRoomsAsync indeterminate filterDto) db)
  = Ok page ->
  let paged :=
    EventRoomRepository.GetEventRoomsPagedAsync
      (Some (FilterPredicate filterDto)) false
      (EventRoomFilterDTO.PageNumber filterDto) (EventRoomFilterDTO.PageSize filterDto)
      (Some EventRoom.Id) false db in
  PaginatedResultDTO.Items page = Mapper.MapList (fst paged)
  /\ PaginatedResultDTO.TotalCount page = snd paged.
Proof.
  rewrite list_on_store. cbv zeta. cbn [result]. intros [= <-]. split; reflexivity.
Qed.

(** X14.  [GetEventRoomsPagedAsync] counts independently of the page: its
    total is the number of stored records that satisfy the predicate, of all
    stored records when the predicate is null, whatever page and size are
    asked for; and it never returns more items than that total, nor more
    than the size asked for. *)
Theorem paged_total_counts_all_matches (db : InMemory.Db)
        (predicate : option (EventRoom.t -> bool)) (tracking : bool) (page count : Z)
        (orderBy : option (EventRoom.t -> Guid)) (descending : bool) :
  let paged :=
    EventRoomRepository.GetEventRoomsPagedAsync predicate tracking page count orderBy
                                                descending db in
  let matches := fun r =>
    match predicate with
    | Some p => p (InMemory.Materialize r)
    | None => true
    end in
  snd paged = Z.of_nat (List.length (filter matches (InMemory.EventRooms db)))
  /\ (predicate = None -> snd paged = Z.of_nat (List.length (InMemory.EventRooms db)))
  /\ Z.of_nat (List.length (fst paged)) <= snd paged
  /\ Z.of_nat (List.length (fst paged)) <= Z.max 0 count.
Proof.
  intros paged matches. subst paged.
  unfold EventRoomRepository.GetEventRoomsPagedAsync; cbn [fst snd].
  assert (Hall : filter (fun _ : Row.t => true) (InMemory.EventRooms db)
                 = InMemory.EventRooms db) by (apply filter_all; reflexivity).
  assert (Hcount : match predicate with
                   | Some p => InMemory.GetCount p db
                   | None => EventRoomRepository.CountAsync db
                   end
                   = Z.of_nat (List.length (filter matches (InMemory.EventRooms db)))).
  { subst matches. destruct predicate as [p|].
    - unfold InMemory.GetCount. now rewrite filter_Query, length_map.
    - unfold EventRoomRepository.CountAsync. now rewrite Hall. }
  split; [exact Hcount|]. split; [intros ->; reflexivity|].
  rewrite Hcount. unfold EventRoomRepository.GetAllAsync. rewrite length_map.
  set (ordered := match orderBy with
                  | Some key => _
                  | None => _
                  end).
  assert (Hlen : List.length ordered
                 = List.length (filter matches (InMemory.EventRooms db))).
  { subst ordered matches.
    assert (Hm : List.length match predicate with
                             | Some p => filter p (InMemory.Query db)
                             | None => InMemory.Query db
                             end
                 = List.length (filter (fun r => match predicate with
                                                 | Some p => p (InMemory.Materialize r)
                                                 | None => true
                                                 end) (InMemory.EventRooms db))).
    { destruct predicate as [p|].
      - now rewrite filter_Query, length_map.
      - unfold InMemory.Query. now rewrite length_map, Hall. }
    destruct orderBy as [key|]; [|exact Hm].
    now rewrite (Permutation_length (OrderBy_perm _ _ _)). }
  rewrite length_firstn, length_skipn. split; lia.
Qed.

(** ** Further properties: the controller *)

Lemma run_bind {S A B : Type} (h : Handler S) (t : Task A) (k : A -> Task B) :
  forall s,
    run h (bind t k) s =
    match result (run h t s) with
    | Ok a =>
        let o := run h (k a) (final (run h t s)) in
        mkOutcome (result o) (final o) (calls (run h t s) ++ calls o)
    | Thrown e => mkOutcome (Thrown e) (final (run h t s)) (calls (run h t s))
    end.
Proof.
  induction t as [a|e|X c f IH]; intros s; cbn [bind run result final calls].
  - now destruct (run h (k a) s).
  - reflexivity.
  - destruct (h X c s) as [x s']. rewrite IH. cbn [result final calls].
    destruct (result (run h (f x) s')); reflexivity.
Qed.

(** X15.  [Create] of the controller, whatever use case and gateway it is
    given, makes no call of its own and ends in one of three ways: an
    exception of the use case passes through unchanged; a record returned by
    the use case gives 201 Created, with the Location
    "/api/v1/EventRooms/<EventId>/<RoomId>" built from the record and the
    mapped record as data; and a null returned by the use case makes the
    action dereference it, a NullReferenceException, not a 201. *)
Theorem Create_outcomes (useCase : IEventRoomUseCase) (S : Type) (h : Handler S) (s : S)
        (vm : CreateEventRoomVM.t) :
  let called := run h (CreateEventRoomAsync useCase (EventRoomMapping.MapCreate vm)) s in
  let action := run h (EventRoomsController.Create useCase vm) s in
  calls action = calls called /\ final action = final called
  /\ (forall e, result called = Thrown e -> result action = Thrown e)
  /\ (forall record,
         result called = Ok (Some record) ->
         result action
         = Ok (Completed
                 (CreatedResult
                    ("/api/v1/EventRooms/" ++ Guid_ToString (EventRoomDTO.EventId record)
                     ++ "/" ++ Guid_ToString (EventRoomDTO.RoomId record))%string
                    (ApiResponse.mk true 201 "EventRoom created successfully."
                                    (Some (EventRoomMapping.MapResponse record))))))
  /\ (result called = Ok None -> result action = Ok NullReference).
Proof.
  intros called action. subst action. unfold EventRoomsController.Create.
  rewrite run_bind. fold called.
  destruct (result called) as [[record|]|e]; cbn [run result final calls];
    rewrite ?app_nil_r; repeat split; try discriminate; try congruence.
  intros r [= <-]. reflexivity.
Qed.


(** X17.  On a store without unsaved changes, [Delete] of the controller
    answers 204 No Content exactly when the pair is stored, and [GetByIds] of
    the same pair then throws [NotFoundException "EventRoom"]; when the pair
    is not stored [Delete] throws the use case's [NotFoundException] and the
    store is unchanged. *)
Theorem Delete_answers_204_when_stored (indeterminate : double -> Z) (db : InMemory.Db)
        (eventId roomId : Guid) :
  Quiescent db ->
  let useCase := RegisteredUseCase indeterminate in
  let deleted :=
    run InMemory.Repositories (EventRoomsController.Delete useCase eventId roomId) db in
  (result deleted = Ok (Completed NoContentResult) <-> Linked db eventId roomId)
  /\ (Linked db eventId roomId ->
      HttpStatus NoContentResult = 204
      /\ result (run InMemory.Repositories
                     (EventRoomsController.GetByIds useCase eventId roomId)
                     (final deleted))
         = Thrown (NotFoundException "EventRoom"))
  /\ (~ Linked db eventId roomId ->
      result deleted = Thrown (NotFoundException (DeleteNotFoundMessage eventId roomId))
      /\ final deleted = db).
Proof.
  intros Hq useCase deleted.
  assert (Hdel : deleted
                 = if is_null (InMemory.FindOneAsync (ByKeys eventId roomId)
                                                     (InMemory.Query db))
                   then mkOutcome
                          (Thrown (NotFoundException (DeleteNotFoundMessage eventId roomId)))
                          db [Invoke (EventRooms_FindOneAsync (ByKeys eventId roomId))]
                   else mkOutcome (Ok (Completed NoContentResult))
                          (InMemory.SaveChangesAsync
                             (InMemory.DeleteAsync (ByKeys eventId roomId) db))
                          [Invoke (EventRooms_FindOneAsync (ByKeys eventId roomId));
                           Invoke (EventRooms_DeleteAsync (ByKeys eventId roomId));
                           Invoke UnitOfWork_SaveChangesAsync]).
  { subst deleted useCase. unfold EventRoomsController.Delete. rewrite run_bind.
    cbn [RegisteredUseCase DeleteEventRoomAsync]. rewrite delete_on_store.
    destruct (is_null _); reflexivity. }
  rewrite Hdel. pose proof (link_lookup db eventId roomId) as Hl.
  destruct (is_null (InMemory.FindOneAsync (ByKeys eventId roomId) (InMemory.Query db)));
    cbn [result final].
  - assert (Hno : ~ Linked db eventId roomId) by (intros Hex; apply Hl in Hex; discriminate).
    split; [split; [discriminate|intros Hex; contradiction]|].
    split; [intros Hex; contradiction|]. intros _. split; reflexivity.
  - assert (Hlk : Linked db eventId roomId) by now apply Hl.
    split; [split; [intros _; exact Hlk|reflexivity]|].
    split; [|intros Hn; contradiction]. intros _. split; [reflexivity|].
    subst useCase. unfold EventRoomsController.GetByIds. rewrite run_bind.
    cbn [RegisteredUseCase GetEventRoomAsync]. rewrite get_on_store. cbn [result].
    rewrite (save_after_delete _ _ Hq). unfold InMemory.Query; cbn [InMemory.EventRooms].
    now rewrite nothing_left_after_delete.
Qed.

(** X18.  What [Create] announces is what [GetByIds] serves: on a store
    without unsaved changes, for an existing event and room not yet
    associated, [Create] answers 201 with the Location of the pair and a
    record, and [GetByIds] of that pair on the resulting store answers 200
    with the same record. *)
Theorem Create_then_GetByIds (indeterminate : double -> Z) (db : InMemory.Db)
        (vm : CreateEventRoomVM.t) :
  let eventId := CreateEventRoomVM.EventId vm in
  let roomId := CreateEventRoomVM.RoomId vm in
  Quiescent db -> EventExists db eventId -> RoomExists db roomId ->
  ~ Linked db eventId roomId ->
  let useCase := RegisteredUseCase indeterminate in
  let created := run InMemory.Repositories (EventRoomsController.Create useCase vm) db in
  exists record,
    result created
    = Ok (Completed
            (CreatedResult
               ("/api/v1/EventRooms/" ++ Guid_ToString eventId
                ++ "/" ++ Guid_ToString roomId)%string
               (ApiResponse.mk true 201 "EventRoom created successfully." (Some record))))
    /\ EventRoomResponse.EventId record = eventId
    /\ EventRoomResponse.RoomId record = roomId
    /\ result (run InMemory.Repositories
                   (EventRoomsController.GetByIds useCase eventId roomId) (final created))
       = Ok (Completed
               (OkObjectResult_EventRoom
                  (ApiResponse.mk true 200 "EventRoom retrieved successfully."
                                  (Some record)))).
Proof.
  intros eventId roomId Hq He Hr Hl useCase created.
  destruct (create_fresh_on_store db (EventRoomMapping.MapCreate vm) Hq He Hr Hl)
    as [Hres Hfin].
  cbn [EventRoomMapping.MapCreate CreateEventRoomDTO.EventId CreateEventRoomDTO.RoomId]
    in Hres, Hfin. fold eventId roomId in Hres, Hfin.
  assert (Hcreated : result created
                     = Ok (Completed
                             (CreatedResult
                                ("/api/v1/EventRooms/" ++ Guid_ToString eventId
                                 ++ "/" ++ Guid_ToString roomId)%string
                                (ApiResponse.mk true 201 "EventRoom created successfully."
                                   (Some (EventRoomResponse.mk (InMemory.NextId db) eventId
                                                               roomId None None)))))
                     /\ final created
                        = InMemory.mkDb (InMemory.Events db) (InMemory.Rooms db)
                            (InMemory.EventRooms db
                               ++ [Row.mk (InMemory.NextId db) eventId roomId])
                            (N.succ (InMemory.NextId db)) []).
  { subst created useCase. unfold EventRoomsController.Create. rewrite run_bind.
    cbn [RegisteredUseCase CreateEventRoomAsync]. rewrite Hres, Hfin.
    split; reflexivity. }
  destruct Hcreated as [Hc Hf]. eexists. split; [exact Hc|].
  split; [reflexivity|]. split; [reflexivity|].
  rewrite Hf. subst useCase. unfold EventRoomsController.GetByIds. rewrite run_bind.
  cbn [RegisteredUseCase GetEventRoomAsync]. rewrite get_on_store. cbn [result].
  unfold InMemory.FindOneAsync, InMemory.Query; cbn [InMemory.EventRooms].
  rewrite map_app; simpl map.
  rewrite (find_appended (ByKeys eventId roomId)).
  - reflexivity.
  - apply find_is_null. intros x Hx. apply in_map_iff in Hx as [r [<- Hin]].
    now apply (unlinked_rows db).
  - apply ByKeys_true. split; reflexivity.
Qed.

(** X19.  No method of the use case, and no action of the controller over
    it, leaves a write uncommitted: whatever the gateway answers, in the
    calls of a run every [AddAsync] and [DeleteAsync] is followed by a
    [SaveChangesAsync]. *)
Theorem every_write_is_saved (indeterminate : double -> Z) (S : Type) (h : Handler S) (s : S) :
  let useCase := RegisteredUseCase indeterminate in
  (forall dto,
      unsaved_writes (calls (run h (EventRoomUseCase.CreateEventRoomAsync dto) s)) = O)
  /\ (forall filterDto,
      unsaved_writes
        (calls (run h (EventRoomUseCase.GetFilteredEventRoomsAsync indeterminate filterDto) s))
      = O)
  /\ (forall eventId roomId,
      unsaved_writes (calls (run h (EventRoomUseCase.GetEventRoomAsync eventId roomId) s)) = O)
  /\ (forall eventId roomId,
      unsaved_writes (calls (run h (EventRoomUseCase.DeleteEventRoomAsync eventId roomId) s))
      = O)
  /\ (forall vm, unsaved_writes (calls (run h (EventRoomsController.Create useCase vm) s)) = O)
  /\ (forall eventId roomId,
      unsaved_writes (calls (run h (EventRoomsController.Delete useCase eventId roomId) s))
      = O).
Proof.
  intros useCase.
  assert (Hcreate : forall dto,
             unsaved_writes (calls (run h (EventRoomUseCase.CreateEventRoomAsync dto) s)) = O).
  { intros dto. unfold EventRoomUseCase.CreateEventRoomAsync.
    await_next h. destruct x as [ev|]; cbn [is_null]; [|reflexivity].
    await_next h. destruct x as [rm|]; cbn [is_null]; [|reflexivity].
    await_next h. destruct x as [dup|]; cbn [is_null negb]; [reflexivity|].
    await_next h. await_next h. await_next h. reflexivity. }
  assert (Hdelete : forall eventId roomId,
             unsaved_writes
               (calls (run h (EventRoomUseCase.DeleteEventRoomAsync eventId roomId) s)) = O).
  { intros eventId roomId. unfold EventRoomUseCase.DeleteEventRoomAsync.
    await_next h. destruct x as [found|]; cbn [is_null]; [|reflexivity].
    await_next h. await_next h. reflexivity. }
  split; [exact Hcreate|]. split.
  { intros filterDto. pose proof (list_on_any indeterminate S h s filterDto) as H.
    cbv zeta in H. now rewrite H. }
  split.
  { intros eventId roomId. unfold EventRoomUseCase.GetEventRoomAsync.
    await_next h. destruct x; reflexivity. }
  split; [exact Hdelete|]. split.
  - intros vm. unfold EventRoomsController.Create. rewrite run_bind.
    subst useCase. cbn [RegisteredUseCase CreateEventRoomAsync].
    specialize (Hcreate (EventRoomMapping.MapCreate vm)).
    destruct (result (run h (EventRoomUseCase.CreateEventRoomAsync
                               (EventRoomMapping.MapCreate vm)) s)) as [[record|]|e];
      cbn [run calls]; rewrite ?app_nil_r; exact Hcreate.
  - intros eventId roomId. unfold EventRoomsController.Delete. rewrite run_bind.
    subst useCase. cbn [RegisteredUseCase DeleteEventRoomAsync].
    specialize (Hdelete eventId roomId).
    destruct (result (run h (EventRoomUseCase.DeleteEventRoomAsync eventId roomId) s));
      cbn [run calls]; rewrite ?app_nil_r; exact Hdelete.
Qed.

(** ** The further properties at concrete inputs *)

Lemma sample_event_stored (rooms : list Room.t) (rows : list Row.t) (next : Guid)
      (pending : list InMemory.Change) :
  EventExists (InMemory.mkDb [Sample.TechConference] rooms rows next pending) Sample.eventId.
Proof. exists Sample.TechConference. split; [now left|reflexivity]. Qed.

Lemma sample_room_stored (events : list Event.t) (rows : list Row.t) (next : Guid)
      (pending : list InMemory.Change) :
  RoomExists (InMemory.mkDb events [Sample.Room101] rows next pending) Sample.roomId.
Proof. exists Sample.Room101. split; [now left|reflexivity]. Qed.

Lemma sample_unlinked_is_unlinked :
  ~ Linked Sample.unlinked Sample.eventId Sample.roomId.
Proof. intros (r & [] & _). Qed.

Lemma sample_linked_is_linked : Linked Sample.linked Sample.eventId Sample.roomId.
Proof.
  exists (Row.mk Sample.generatedId Sample.eventId Sample.roomId).
  split; [now left|split; reflexivity].
Qed.

Lemma sample_linked_integrity : ReferentialIntegrity Sample.linked.
Proof.
  intros r [<-|[]]. split; [apply sample_event_stored|apply sample_room_stored].
Qed.

(** Create on the sample store, then read the pair back. *)
Lemma create_then_get_witness :
  let created := run InMemory.Repositories
                     (EventRoomUseCase.CreateEventRoomAsync Sample.createDto)
                     Sample.unlinked in
  exists record,
    result created = Ok (Some record)
    /\ result (run InMemory.Repositories
                   (EventRoomUseCase.GetEventRoomAsync Sample.eventId Sample.roomId)
                   (final created)) = Ok record.
Proof.
  cbv zeta.
  destruct (create_then_get Sample.unlinked Sample.createDto) as (record & Hc & _ & _ & Hg);
    [reflexivity|apply sample_event_stored|apply sample_room_stored
     |apply sample_unlinked_is_unlinked|].
  exists record. split; assumption.
Defined.

(** Delete the stored pair, then try to read it. *)
Lemma delete_then_get_not_found_witness :
  result (run InMemory.Repositories
              (EventRoomUseCase.GetEventRoomAsync Sample.eventId Sample.roomId)
              (final (run InMemory.Repositories
                          (EventRoomUseCase.DeleteEventRoomAsync Sample.eventId Sample.roomId)
                          Sample.linked)))
  = Thrown (NotFoundException "EventRoom").
Proof.
  apply (delete_then_get_not_found Sample.linked Sample.eventId Sample.roomId). reflexivity.
Defined.

(** Create the same pair twice on the sample store. *)
Lemma create_twice_conflicts_witness :
  let first := run InMemory.Repositories
                   (EventRoomUseCase.CreateEventRoomAsync Sample.createDto) Sample.unlinked in
  let second := run InMemory.Repositories
                    (EventRoomUseCase.CreateEventRoomAsync Sample.createDto) (final first) in
  result second
  = Thrown (ConflictException "EventRoom with same Event and Room already exists.")
  /\ final second = Sample.linked.
Proof.
  cbv zeta.
  destruct (create_twice_conflicts Sample.unlinked Sample.createDto) as [Hres Hfin];
    [reflexivity|apply sample_event_stored|apply sample_room_stored|].
  split; [exact Hres|]. rewrite Hfin. reflexivity.
Defined.

(** Create, delete, create again on the sample store. *)
Lemma create_delete_restores_witness :
  let created := run InMemory.Repositories
                     (EventRoomUseCase.CreateEventRoomAsync Sample.createDto)
                     Sample.unlinked in
  let deleted := run InMemory.Repositories
                     (EventRoomUseCase.DeleteEventRoomAsync Sample.eventId Sample.roomId)
                     (final created) in
  InMemory.EventRooms (final deleted) = []
  /\ result (run InMemory.Repositories
                 (EventRoomUseCase.CreateEventRoomAsync Sample.createDto) (final deleted))
     = Ok (Some (EventRoomDTO.mk (N.succ Sample.generatedId) Sample.eventId Sample.roomId
                                 None None)).
Proof.
  cbv zeta.
  destruct (create_delete_restores Sample.unlinked Sample.createDto)
    as (_ & Hrows & _ & _ & Hagain);
    [reflexivity|apply sample_event_stored|apply sample_room_stored
     |apply sample_unlinked_is_unlinked|].
  split; [exact Hrows|exact Hagain].
Defined.

(** Create, create, delete, list on the store with one association. *)
Lemma requests_keep_referential_integrity_witness :
  let after :=
    replay Sample.indeterminate
           [Create Sample.createDto; Delete Sample.eventId Sample.roomId;
            Create Sample.createDto; GetAll EventRoomFilterDTO.default]
           Sample.linked in
  Quiescent after /\ ReferentialIntegrity after.
Proof.
  cbv zeta.
  destruct (requests_keep_referential_integrity Sample.indeterminate
              [Create Sample.createDto; Delete Sample.eventId Sample.roomId;
               Create Sample.createDto; GetAll EventRoomFilterDTO.default]
              Sample.linked) as [Hri Hq];
    [reflexivity|apply sample_linked_integrity|].
  split; assumption.
Defined.

(** The successful creation on the sample store. *)
Lemma create_success_means_one_record_witness :
  EventExists Sample.unlinked Sample.eventId
  /\ List.length
       (filter (fun r => ByKeys Sample.eventId Sample.roomId (InMemory.Materialize r))
               (InMemory.EventRooms
                  (final (run InMemory.Repositories
                              (EventRoomUseCase.CreateEventRoomAsync Sample.createDto)
                              Sample.unlinked)))) = 1%nat.
Proof.
  destruct (create_success_means_one_record Sample.unlinked Sample.createDto
              (Some (EventRoomDTO.mk Sample.generatedId Sample.eventId Sample.roomId
                                     None None)))
    as (He & _ & _ & _ & Hone); [reflexivity|reflexivity|].
  split; assumption.
Defined.

(** [GetByIdsAsync] on the store with one association. *)
Lemma GetByIdsAsync_resolves_witness :
  exists er e r,
    InMemory.GetByIdsAsync Sample.eventId Sample.roomId Sample.linked = Some er
    /\ EventRoom.Event er = Some e /\ Event.Id e = Sample.eventId
    /\ EventRoom.Room er = Some r /\ Room.Id r = Sample.roomId.
Proof.
  destruct (GetByIdsAsync_resolves Sample.linked Sample.eventId Sample.roomId)
    as (_ & _ & Hsome).
  destruct (Hsome _ eq_refl) as (_ & _ & Hevent & Hroom).
  destruct Hevent as (e & He & Hid & _); [apply sample_event_stored|].
  destruct Hroom as (r & Hr & Hrid & _); [apply sample_room_stored|].
  eexists. exists e, r. split; [reflexivity|]. repeat split; assumption.
Defined.

(** Deleting room 1 of the event held in twenty-five rooms leaves room 2. *)
Lemma DeleteByIdsAsync_then_GetByIdsAsync_witness :
  let saved :=
    InMemory.SaveChangesAsync (InMemory.DeleteByIdsAsync Sample.eventId 1%N Sample.crowded) in
  InMemory.GetByIdsAsync Sample.eventId 1%N saved = None
  /\ InMemory.GetByIdsAsync Sample.eventId 2%N saved
     = InMemory.GetByIdsAsync Sample.eventId 2%N Sample.crowded.
Proof.
  cbv zeta.
  destruct (DeleteByIdsAsync_then_GetByIdsAsync Sample.crowded Sample.eventId 1%N)
    as [Hgone Hother]; [reflexivity|].
  split; [exact Hgone|]. apply Hother. intros H. discriminate H.
Defined.

(** Page 2 of size 10 over twenty-five matching records has a next page. *)
Lemma paging_flags_meaning_witness :
  exists page,
    result (run InMemory.Repositories
                (EventRoomUseCase.GetFilteredEventRoomsAsync
                   Sample.indeterminate (Sample.byEvent 2 10)) Sample.crowded) = Ok page
    /\ PaginatedResultDTO.TotalCount page = 25
    /\ PaginatedResultDTO.HasNextPage page = true
    /\ PaginatedResultDTO.HasPreviousPage page = true.
Proof.
  destruct (paging_flags_meaning Sample.indeterminate _ InMemory.Repositories Sample.crowded
                                 (Sample.byEvent 2 10))
    as (page & Hres & Hcount & Hnext & _ & Hprev);
    [vm_compute; discriminate|vm_compute; split; discriminate|].
  exists page. split; [exact Hres|]. split; [exact Hcount|].
  split; [apply Hnext|apply Hprev]; reflexivity.
Defined.


(** The one item listed from the store with one association. *)
Lemma listed_items_are_resolved_witness :
  exists e rm,
    EventRoomDTO.Event
      (ListedItem Sample.linked (Row.mk Sample.generatedId Sample.eventId Sample.roomId))
    = Some e
    /\ EventDTO.Id e = Sample.eventId
    /\ EventRoomDTO.Room
         (ListedItem Sample.linked (Row.mk Sample.generatedId Sample.eventId Sample.roomId))
       = Some rm
    /\ RoomDTO.Id rm = Sample.roomId.
Proof.
  apply (listed_items_are_resolved Sample.indeterminate Sample.linked
           EventRoomFilterDTO.default _ sample_linked_integrity eq_refl).
  left. reflexivity.
Defined.

(** The listing and the paged repository method on the crowded store. *)
Lemma listing_agrees_with_paged_repository_witness :
  exists page,
    result (run InMemory.Repositories
                (EventRoomUseCase.GetFilteredEventRoomsAsync
                   Sample.indeterminate (Sample.byEvent 3 10)) Sample.crowded) = Ok page
    /\ PaginatedResultDTO.Items page
       = Mapper.MapList
           (fst (EventRoomRepository.GetEventRoomsPagedAsync
                   (Some (FilterPredicate (Sample.byEvent 3 10))) false 3 10
                   (Some EventRoom.Id) false Sample.crowded))
    /\ List.length (PaginatedResultDTO.Items page) = 5%nat.
Proof.
  eexists. split; [reflexivity|].
  destruct (listing_agrees_with_paged_repository Sample.indeterminate Sample.crowded
              (Sample.byEvent 3 10) _ eq_refl) as [Hitems _].
  split; [exact Hitems|reflexivity].
Defined.

(** The controller over the mocked gateway: a null re-read, then the
    arranged entity. *)
Lemma Create_outcomes_witness :
  let vm := CreateEventRoomVM.mk Sample.eventId Sample.roomId in
  let useCase := RegisteredUseCase Sample.indeterminate in
  result (run Mock.Repositories (EventRoomsController.Create useCase vm) [])
  = Ok NullReference
  /\ result (run Mock.Repositories (EventRoomsController.Create useCase vm)
                 Mock.SetupSequence)
     = Ok (Completed
             (CreatedResult
                "/api/v1/EventRooms/550e8400-e29b-41d4-a716-446655440000/6ba7b810-9dad-11d1-80b4-00c04fd430c8"
                (ApiResponse.mk true 201 "EventRoom created successfully."
                   (Some (EventRoomResponse.mk Sample.generatedId Sample.eventId
                                               Sample.roomId None None))))).
Proof.
  cbv zeta.
  destruct (Create_outcomes (RegisteredUseCase Sample.indeterminate) _ Mock.Repositories []
                            (CreateEventRoomVM.mk Sample.eventId Sample.roomId))
    as (_ & _ & _ & _ & Hnull).
  destruct (Create_outcomes (RegisteredUseCase Sample.indeterminate) _ Mock.Repositories
                            Mock.SetupSequence
                            (CreateEventRoomVM.mk Sample.eventId Sample.roomId))
    as (_ & _ & _ & Hrecord & _).
  split; [apply Hnull; reflexivity|].
  exact (Hrecord _ eq_refl).
Defined.

(** Delete the stored pair through the controller, then ask for it. *)
Lemma Delete_answers_204_when_stored_witness :
  let useCase := RegisteredUseCase Sample.indeterminate in
  let deleted :=
    run InMemory.Repositories
        (EventRoomsController.Delete useCase Sample.eventId Sample.roomId) Sample.linked in
  result deleted = Ok (Completed NoContentResult)
  /\ result (run InMemory.Repositories
                 (EventRoomsController.GetByIds useCase Sample.eventId Sample.roomId)
                 (final deleted))
     = Thrown (NotFoundException "EventRoom").
Proof.
  cbv zeta.
  destruct (Delete_answers_204_when_stored Sample.indeterminate Sample.linked
              Sample.eventId Sample.roomId) as (Hiff & Hstored & _); [reflexivity|].
  split; [apply Hiff; apply sample_linked_is_linked|].
  apply Hstored. apply sample_linked_is_linked.
Defined.

(** Create through the controller on the sample store, then ask for the
    pair. *)
Lemma Create_then_GetByIds_witness :
  let vm := CreateEventRoomVM.mk Sample.eventId Sample.roomId in
  let useCase := RegisteredUseCase Sample.indeterminate in
  let created := run InMemory.Repositories (EventRoomsController.Create useCase vm)
                     Sample.unlinked in
  exists record,
    result (run InMemory.Repositories
                (EventRoomsController.GetByIds useCase Sample.eventId Sample.roomId)
                (final created))
    = Ok (Completed
            (OkObjectResult_EventRoom
               (ApiResponse.mk true 200 "EventRoom retrieved successfully." (Some record))))
    /\ EventRoomResponse.EventId record = Sample.eventId
    /\ EventRoomResponse.RoomId record = Sample.roomId.
Proof.
  cbv zeta.
  destruct (Create_then_GetByIds Sample.indeterminate Sample.unlinked
              (CreateEventRoomVM.mk Sample.eventId Sample.roomId))
    as (record & _ & He & Hr & Hget);
    [reflexivity|apply sample_event_stored|apply sample_room_stored
     |apply sample_unlinked_is_unlinked|].
  exists record. repeat split; assumption.
Defined.
